(** * Clair configuration loader ([cmd/clair/config.go])

    A shallow embedding of [DefaultConfig] and [LoadConfig] together with
    the parts of their collaborators that decide what [LoadConfig] does:
    the Viper resolver (file layer, environment layer, process-wide
    instance), the fernet key (generation and URL-safe base64 rendering),
    and Go's run-time panics on writes through a nil pointer.

    Conventions.
    - Go [string] is [string]; Go [int] and [time.Duration] are [Z]
      (a duration counts nanoseconds).
    - A Go [map[string]interface{}] whose values are only ever strings is a
      [gmap string string]; a nil map reads like the empty one.
    - The package-level variable [clairConfig] is the field of [Globals];
      the operating-system side (files, environment, entropy) is [World].
    - A call of [LoadConfig] ends in an [Outcome]: either it returns its two
      named results, or the goroutine panics.
    - Lines written to the log and to standard output are left out. *)

From Stdlib Require Import ZArith NArith Lia Ascii String List.
From Stdlib Require Strings.Byte.
From stdpp Require Import base option gmap strings pretty.

Local Open Scope Z_scope.
Local Open Scope string_scope.

(** ** Go strings: case mapping of ASCII letters *)

Module Strings.

Definition upper_ascii (c : ascii) : ascii :=
  let n := N_of_ascii c in
  if ((97 <=? n) && (n <=? 122))%N then ascii_of_N (n - 32) else c.

Definition lower_ascii (c : ascii) : ascii :=
  let n := N_of_ascii c in
  if ((65 <=? n) && (n <=? 90))%N then ascii_of_N (n + 32) else c.

Fixpoint map_string (f : ascii -> ascii) (s : string) : string :=
  match s with
  | EmptyString => EmptyString
  | String c r => String (f c) (map_string f r)
  end.

(** [strings.ToUpper] and [strings.ToLower] on ASCII text. *)
Definition ToUpper : string -> string := map_string upper_ascii.
Definition ToLower : string -> string := map_string lower_ascii.

End Strings.

(** ** Errors

    The [error] values that can arise in [LoadConfig]. An error made by
    [time.ParseDuration] or [fernet.DecodeKey] carries the text the library
    built. *)

Inductive error : Type :=
| ErrDatasourceNotLoaded
    (* errors.New("could not load configuration: no database source specified") *)
| ErrInvalidPaginationKey
    (* errors.New("Invalid Pagination key; must be 32-bit URL-safe base64") *)
| ErrReadInConfig (configFile : string)   (* any failure of Viper.ReadInConfig *)
| ErrParseDuration (msg : string)         (* time.ParseDuration *)
| ErrDecodeKey (msg : string)             (* fernet.DecodeKey *)
| ErrRandRead.                            (* io.ReadFull(rand.Reader, _) *)

#[global] Instance error_eq_dec : EqDecision error.
Proof. solve_decision. Defined.


(** ** Time *)

Module time.

Definition Duration := Z.

Definition Nanosecond : Duration := 1.
Definition Microsecond : Duration := 1000 * Nanosecond.
Definition Millisecond : Duration := 1000 * Microsecond.
Definition Second : Duration := 1000 * Millisecond.
Definition Minute : Duration := 60 * Second.
Definition Hour : Duration := 60 * Minute.

End time.

(** ** URL-safe base64 ([encoding/base64], [URLEncoding])

    The encoder follows [Encoding.Encode]: three source bytes are packed
    into a 24-bit value and cut into four 6-bit digits; a remainder of one
    or two bytes is padded with '='. The decoder is the inverse quantum
    decoder of RFC 4648 section 5 with mandatory padding. *)

Module base64.

Import ListNotations.

Definition encodeURL : string :=
  "ABCDEFGHIJKLMNOPQRSTUVWXYZabcdefghijklmnopqrstuvwxyz0123456789-_".

Definition StdPadding : ascii := "="%char.

(** [enc.encode[i]] *)
Definition encode_digit (i : N) : ascii :=
  match String.get (N.to_nat i) encodeURL with
  | Some c => c
  | None => StdPadding
  end.

Fixpoint index_from (c : ascii) (s : string) (i : N) : option N :=
  match s with
  | EmptyString => None
  | String d r => if Ascii.eqb c d then Some i else index_from c r (N.succ i)
  end.

(** [enc.decodeMap[c]], [None] standing for the invalid mark 0xFF *)
Definition decode_digit (c : ascii) : option N := index_from c encodeURL 0.

Definition byte_of_N (n : N) : Byte.byte :=
  match Byte.of_N (n mod 256) with
  | Some b => b
  | None => Byte.x00
  end.

Definition pack3 (a b c : Byte.byte) : N :=
  N.lor (N.lor (N.shiftl (Byte.to_N a) 16) (N.shiftl (Byte.to_N b) 8))
        (Byte.to_N c).

(** [val>>shift&0x3F] *)
Definition sextet (val : N) (shift : N) : N :=
  N.land (N.shiftr val shift) 63.

Definition digit (val : N) (shift : N) : ascii :=
  encode_digit (sextet val shift).

Fixpoint encode (src : list Byte.byte) : list ascii :=
  match src with
  | a :: b :: c :: rest =>
      let val := pack3 a b c in
      digit val 18 :: digit val 12 :: digit val 6 :: digit val 0 :: encode rest
  | [a; b] =>
      let val := N.lor (N.shiftl (Byte.to_N a) 16) (N.shiftl (Byte.to_N b) 8) in
      [digit val 18; digit val 12; digit val 6; StdPadding]
  | [a] =>
      let val := N.shiftl (Byte.to_N a) 16 in
      [digit val 18; digit val 12; StdPadding; StdPadding]
  | [] => []
  end.

Definition EncodeToString (src : list Byte.byte) : string :=
  string_of_list_ascii (encode src).

Definition unpack (d1 d2 d3 d4 : N) : N :=
  N.lor (N.lor (N.lor (N.shiftl d1 18) (N.shiftl d2 12)) (N.shiftl d3 6)) d4.

Fixpoint decode (s : list ascii) : option (list Byte.byte) :=
  match s with
  | [] => Some []
  | c1 :: c2 :: c3 :: c4 :: rest =>
      match decode_digit c1, decode_digit c2 with
      | Some d1, Some d2 =>
          match decode_digit c3, decode_digit c4 with
          | Some d3, Some d4 =>
              let val := unpack d1 d2 d3 d4 in
              match decode rest with
              | Some out =>
                  Some (byte_of_N (N.shiftr val 16) :: byte_of_N (N.shiftr val 8)
                          :: byte_of_N val :: out)
              | None => None
              end
          | Some d3, None =>
              (* two bytes and one padding character end the input *)
              if Ascii.eqb c4 StdPadding && bool_decide (rest = []) then
                let val := unpack d1 d2 d3 0 in
                Some [byte_of_N (N.shiftr val 16); byte_of_N (N.shiftr val 8)]
              else None
          | None, _ =>
              (* one byte and two padding characters end the input *)
              if Ascii.eqb c3 StdPadding && Ascii.eqb c4 StdPadding
                 && bool_decide (rest = []) then
                Some [byte_of_N (N.shiftr (unpack d1 d2 0 0) 16)]
              else None
          end
      | _, _ => None
      end
  | _ => None
  end.

Definition DecodeString (s : string) : option (list Byte.byte) :=
  decode (list_ascii_of_string s).

End base64.

Import ListNotations.

(** ** The world outside the process *)

(** A scalar of a parsed configuration file. *)
Inductive value : Type :=
| VString (s : string)
| VInt (n : Z)
| VBool (b : bool).

#[global] Instance value_eq_dec : EqDecision value.
Proof. solve_decision. Defined.

(** [files] maps the name of every configuration file that can be read and
    parsed to its contents, flattened to lower-case dotted key paths;
    [environ] is the process environment; [entropy] is what [rand.Reader]
    delivers before it fails. *)
Record World : Type := {
  files : gmap string (gmap string value);
  environ : gmap string string;
  entropy : list Byte.byte
}.

(** ** Library functions taken as given

    [time.ParseDuration] (the duration, or the text of its error),
    [strconv.ParseInt(s, 0, 0)] as used by [cast.ToInt], and
    [fernet.DecodeKey] (the key, or the text of its error). *)
Class Extern : Type := {
  ParseDuration : string -> time.Duration + string;
  ParseInt : string -> option Z;
  DecodeKey : string -> list Byte.byte + string
}.

(** Go's two-result form of [time.ParseDuration]. *)
Definition time_ParseDuration `{Extern} (s : string)
  : time.Duration * option error :=
  match ParseDuration s with
  | inl d => (d, None)
  | inr msg => (0, Some (ErrParseDuration msg))
  end.

(** ** cast: conversions of untyped values *)

Module cast.

Definition ToString (i : option value) : string :=
  match i with
  | Some (VString s) => s
  | Some (VInt n) => pretty n
  | Some (VBool true) => "true"
  | Some (VBool false) => "false"
  | None => ""
  end.

Definition ToInt `{Extern} (i : option value) : Z :=
  match i with
  | Some (VInt n) => n
  | Some (VString s) => match ParseInt s with Some n => n | None => 0 end
  | Some (VBool true) => 1
  | Some (VBool false) => 0
  | None => 0
  end.

End cast.

(** ** Viper

    Only the layers this program populates are modelled: the configuration
    file and, once [AutomaticEnv] is on, the environment. A non-empty
    environment variable whose name is the upper-cased, prefixed key wins
    over the file value; no key replacer is installed, so the dots of a key
    path stay in the variable's name. *)

Module viper.

Record Viper : Type := {
  configName : string;
  configFile : string;
  config : gmap string value;
  envPrefix : string;
  automaticEnvApplied : bool
}.

Definition New : Viper :=
  {| configName := "config"; configFile := ""; config := ∅;
     envPrefix := ""; automaticEnvApplied := false |}.

Definition SetConfigName (name : string) (v : Viper) : Viper :=
  if decide (name = "") then v
  else {| configName := name; configFile := "";
          config := config v; envPrefix := envPrefix v;
          automaticEnvApplied := automaticEnvApplied v |}.

Definition SetConfigFile (file : string) (v : Viper) : Viper :=
  if decide (file = "") then v
  else {| configName := configName v; configFile := file;
          config := config v; envPrefix := envPrefix v;
          automaticEnvApplied := automaticEnvApplied v |}.

Definition SetEnvPrefix (prefix : string) (v : Viper) : Viper :=
  {| configName := configName v; configFile := configFile v;
     config := config v; envPrefix := Strings.ToUpper prefix;
     automaticEnvApplied := automaticEnvApplied v |}.

Definition AutomaticEnv (v : Viper) : Viper :=
  {| configName := configName v; configFile := configFile v;
     config := config v; envPrefix := envPrefix v;
     automaticEnvApplied := true |}.

(** With no explicit file name Viper searches its configured paths; this
    program adds none, so nothing is found. Otherwise the named file is
    read; on any failure the file layer keeps its previous contents. *)
Definition ReadInConfig (w : World) (v : Viper) : Viper * option error :=
  if decide (configFile v = "") then
    (v, Some (ErrReadInConfig (configName v)))
  else
    match files w !! configFile v with
    | Some m =>
        ({| configName := configName v; configFile := configFile v;
            config := m; envPrefix := envPrefix v;
            automaticEnvApplied := automaticEnvApplied v |}, None)
    | None => (v, Some (ErrReadInConfig (configFile v)))
    end.

Definition mergeWithEnvPrefix (v : Viper) (key : string) : string :=
  if decide (envPrefix v = "") then Strings.ToUpper key
  else Strings.ToUpper (envPrefix v ++ "_" ++ key).

(** [os.Getenv]: an unset variable reads as the empty string. *)
Definition getEnv (w : World) (name : string) : string :=
  default "" (environ w !! name).

Definition find (w : World) (v : Viper) (lcaseKey : string) : option value :=
  let val :=
    if automaticEnvApplied v then getEnv w (mergeWithEnvPrefix v lcaseKey)
    else "" in
  if decide (val = "") then config v !! lcaseKey else Some (VString val).

Definition Get (w : World) (v : Viper) (key : string) : option value :=
  find w v (Strings.ToLower key).

Definition IsSet (w : World) (v : Viper) (key : string) : bool :=
  bool_decide (is_Some (find w v (Strings.ToLower key))).

Definition GetString (w : World) (v : Viper) (key : string) : string :=
  cast.ToString (Get w v key).

Definition GetInt `{Extern} (w : World) (v : Viper) (key : string) : Z :=
  cast.ToInt (Get w v key).

End viper.

(** ** fernet keys *)

Module fernet.

(** [type Key [32]byte] *)
Definition Key := list Byte.byte.
Definition KeyLen : nat := 32.

(** [Key.Generate]: [io.ReadFull(rand.Reader, k[:])]. *)
Definition Generate (w : World) : Key * option error :=
  if (KeyLen <=? length (entropy w))%nat then (take KeyLen (entropy w), None)
  else (replicate KeyLen Byte.x00, Some ErrRandRead).

(** [Key.Encode]: the URL-safe base64 text of the 32 bytes. *)
Definition Encode (k : Key) : string := base64.EncodeToString k.

(** Go's two-result form of [fernet.DecodeKey]. *)
Definition fernet_DecodeKey `{Extern} (s : string) : option Key * option error :=
  match DecodeKey s with
  | inl k => (Some k, None)
  | inr msg => (None, Some (ErrDecodeKey msg))
  end.

End fernet.

(** ** The configuration structures *)

(** [database.RegistrableComponentConfig] *)
Record RegistrableComponentConfig : Type := {
  Type_ : string;
  Options : gmap string string
}.

(** [clair.UpdaterConfig] *)
Record UpdaterConfig : Type := {
  Interval : time.Duration
}.

(** [notification.Config] *)
Record NotifierConfig : Type := {
  Attempts : Z;
  RenotifyInterval : time.Duration;
  Params : gmap string string
}.

(** [api.Config] *)
Record APIConfig : Type := {
  Port : Z;
  HealthPort : Z;
  Timeout : time.Duration;
  CAFile : string;
  KeyFile : string;
  CertFile : string
}.

(** [Config]: the three pointer fields are never nil and never shared, so
    they are held by value. *)
Record Config : Type := {
  Database : RegistrableComponentConfig;
  Updater : UpdaterConfig;
  Notifier : NotifierConfig;
  API : APIConfig
}.

#[global] Instance RegistrableComponentConfig_eq_dec :
  EqDecision RegistrableComponentConfig.
Proof. solve_decision. Defined.
#[global] Instance UpdaterConfig_eq_dec : EqDecision UpdaterConfig.
Proof. solve_decision. Defined.
#[global] Instance NotifierConfig_eq_dec : EqDecision NotifierConfig.
Proof. solve_decision. Defined.
#[global] Instance APIConfig_eq_dec : EqDecision APIConfig.
Proof. solve_decision. Defined.
#[global] Instance Config_eq_dec : EqDecision Config.
Proof. solve_decision. Defined.

(** Field assignments [cfgFile.Clair.X.Y = e]. *)
Definition set_Database_Type (x : string) (c : Config) : Config :=
  {| Database := {| Type_ := x; Options := Options (Database c) |};
     Updater := Updater c; Notifier := Notifier c; API := API c |}.

Definition set_Database_Options (m : gmap string string) (c : Config) : Config :=
  {| Database := {| Type_ := Type_ (Database c); Options := m |};
     Updater := Updater c; Notifier := Notifier c; API := API c |}.

(** [c.Database.Options[k] = x] *)
Definition put_Database_Option (k x : string) (c : Config) : Config :=
  set_Database_Options (<[k := x]> (Options (Database c))) c.

Definition set_API (a : APIConfig) (c : Config) : Config :=
  {| Database := Database c; Updater := Updater c; Notifier := Notifier c;
     API := a |}.

Definition set_API_HealthPort (x : Z) (c : Config) : Config :=
  set_API {| Port := Port (API c); HealthPort := x; Timeout := Timeout (API c);
             CAFile := CAFile (API c); KeyFile := KeyFile (API c);
             CertFile := CertFile (API c) |} c.

Definition set_API_Timeout (x : time.Duration) (c : Config) : Config :=
  set_API {| Port := Port (API c); HealthPort := HealthPort (API c);
             Timeout := x; CAFile := CAFile (API c); KeyFile := KeyFile (API c);
             CertFile := CertFile (API c) |} c.

Definition set_API_CAFile (x : string) (c : Config) : Config :=
  set_API {| Port := Port (API c); HealthPort := HealthPort (API c);
             Timeout := Timeout (API c); CAFile := x; KeyFile := KeyFile (API c);
             CertFile := CertFile (API c) |} c.

Definition set_API_KeyFile (x : string) (c : Config) : Config :=
  set_API {| Port := Port (API c); HealthPort := HealthPort (API c);
             Timeout := Timeout (API c); CAFile := CAFile (API c); KeyFile := x;
             CertFile := CertFile (API c) |} c.

Definition set_API_CertFile (x : string) (c : Config) : Config :=
  set_API {| Port := Port (API c); HealthPort := HealthPort (API c);
             Timeout := Timeout (API c); CAFile := CAFile (API c);
             KeyFile := KeyFile (API c); CertFile := x |} c.

Definition set_Updater_Interval (x : time.Duration) (c : Config) : Config :=
  {| Database := Database c; Updater := {| Interval := x |};
     Notifier := Notifier c; API := API c |}.

Definition set_Notifier (n : NotifierConfig) (c : Config) : Config :=
  {| Database := Database c; Updater := Updater c; Notifier := n; API := API c |}.

Definition set_Notifier_Attempts (x : Z) (c : Config) : Config :=
  set_Notifier {| Attempts := x;
                  RenotifyInterval := RenotifyInterval (Notifier c);
                  Params := Params (Notifier c) |} c.

Definition set_Notifier_RenotifyInterval (x : time.Duration) (c : Config) : Config :=
  set_Notifier {| Attempts := Attempts (Notifier c); RenotifyInterval := x;
                  Params := Params (Notifier c) |} c.

(** [c.Notifier.Params[k] = x] *)
Definition put_Notifier_Param (k x : string) (c : Config) : Config :=
  set_Notifier {| Attempts := Attempts (Notifier c);
                  RenotifyInterval := RenotifyInterval (Notifier c);
                  Params := <[k := x]> (Params (Notifier c)) |} c.

(** DefaultConfig is a configuration that can be used as a fallback value. *)
Definition DefaultConfig : Config :=
  {| Database := {| Type_ := "pgsql"; Options := ∅ |};
     Updater := {| Interval := 1 * time.Hour |};
     API := {| Port := 6060; HealthPort := 6061;
               Timeout := 900 * time.Second;
               CAFile := ""; KeyFile := ""; CertFile := "" |};
     Notifier := {| Attempts := 5; RenotifyInterval := 2 * time.Hour;
                    Params := ∅ |} |}.

(** The zero value of [Config], as [var cfgFile File] starts out. *)
Definition ZeroConfig : Config :=
  {| Database := {| Type_ := ""; Options := ∅ |};
     Updater := {| Interval := 0 |};
     API := {| Port := 0; HealthPort := 0; Timeout := 0;
               CAFile := ""; KeyFile := ""; CertFile := "" |};
     Notifier := {| Attempts := 0; RenotifyInterval := 0; Params := ∅ |} |}.

(** ** Process state, outcomes and control flow *)

(** [var clairConfig *viper.Viper]: nil until the first call. *)
Record Globals : Type := {
  clairConfig : option viper.Viper
}.

Definition fresh : Globals := {| clairConfig := None |}.

Inductive Outcome : Type :=
| Returned (config : option Config) (err : option error)
| Panicked (reason : string).

Definition nil_dereference : string :=
  "runtime error: invalid memory address or nil pointer dereference".

(** The named results [config] and [err] and the local [cfgFile.Clair]. A
    non-nil [config] is the structure it points to. *)
Record Locals : Type := {
  config : option Config;
  err : option error;
  cfgFile : Config
}.

Definition set_config (p : option Config) (l : Locals) : Locals :=
  {| config := p; err := err l; cfgFile := cfgFile l |}.

Definition set_err (e : option error) (l : Locals) : Locals :=
  {| config := config l; err := e; cfgFile := cfgFile l |}.

(** A statement either falls through with new locals or ends the call. *)
Inductive flow (A : Type) : Type :=
| Next (a : A)
| Stop (o : Outcome).

Arguments Next {A} a.
Arguments Stop {A} o.

Definition step : Type := Locals -> flow Locals.

Definition seq (s t : step) : step :=
  fun l => match s l with Next l' => t l' | Stop o => Stop o end.

Declare Scope step_scope.
Delimit Scope step_scope with step.
Bind Scope step_scope with step.
Notation "s ;; t" := (seq s t)
  (at level 100, t at level 200, right associativity) : step_scope.

(** A bare [return]: the named results as they stand. *)
Definition return_ : step := fun l => Stop (Returned (config l) (err l)).

(** [cfgFile.Clair.X = e] *)
Definition assign (f : Config -> Config) : step :=
  fun l => Next {| config := config l; err := err l; cfgFile := f (cfgFile l) |}.

(** [config.X = e]: a write through the result pointer. *)
Definition assign_through_config (f : Config -> Config) : step :=
  fun l =>
    match config l with
    | None => Stop (Panicked nil_dereference)
    | Some c => Next (set_config (Some (f c)) l)
    end.

(** [if cond { s }] *)
Definition when (cond : bool) (s : step) : step :=
  if cond then s else Next.

(** [if err != nil { return }] *)
Definition return_if_err : step :=
  fun l => match err l with Some _ => return_ l | None => Next l end.

(** [cfgFile.Clair.X, err = time.ParseDuration(s)] *)
Definition assign_duration `{Extern}
    (f : time.Duration -> Config -> Config) (s : string) : step :=
  fun l =>
    let '(d, e) := time_ParseDuration s in
    Next {| config := config l; err := e; cfgFile := f d (cfgFile l) |}.

(** What the caller sees when the statements run from [l]. Falling off the
    end of the body cannot happen: the last statement is a [return]. *)
Definition run (s : step) (l : Locals) : Outcome :=
  match s l with
  | Next l' => Returned (config l') (err l')
  | Stop o => o
  end.

(** ** LoadConfig *)

Section Statements.

Context `{Extern}.
Variable w : World.
Variable v : viper.Viper.

Local Abbreviation IsSet := (viper.IsSet w v).
Local Abbreviation GetString := (viper.GetString w v).
Local Abbreviation GetInt := (viper.GetInt w v).

(** Lines 91-93. *)
Definition init_cfgFile : step :=
  (assign (fun _ => DefaultConfig) ;;
   assign (set_Database_Options ∅))%step.

(** Lines 95-106: the database type and options. *)
Definition load_database : step :=
  (when (IsSet "clair.database.type")
     (assign (set_Database_Type (GetString "clair.database.type"))) ;;
   when (IsSet "clair.database.options.source")
     (assign (put_Database_Option "source"
                (GetString "clair.database.options.source"))) ;;
   when (IsSet "clair.database.options.cachesize")
     (assign (put_Database_Option "cachesize"
                (GetString "clair.database.options.cachesize"))) ;;
   when (IsSet "clair.database.options.paginationkey")
     (assign (put_Database_Option "paginationkey"
                (GetString "clair.database.options.paginationkey"))))%step.

(** Lines 110-112. *)
Definition load_api_healthport : step :=
  when (IsSet "clair.database.api.healthaddr")
    (assign (set_API_HealthPort (GetInt "clair.database.api.healthport"))).

(** Lines 113-118. *)
Definition load_api_timeout : step :=
  when (IsSet "clair.database.api.timeout")
    (assign_duration set_API_Timeout (GetString "clair.database.api.timeout") ;;
     return_if_err)%step.

(** Lines 120-128. *)
Definition load_api_files : step :=
  (when (IsSet "clair.database.api.cafile")
     (assign (set_API_CAFile (GetString "clair.database.api.cafile"))) ;;
   when (IsSet "clair.database.api.keyfile")
     (assign (set_API_KeyFile (GetString "clair.database.api.keyfile"))) ;;
   when (IsSet "clair.database.api.certfile")
     (assign (set_API_CertFile (GetString "clair.database.api.certfile"))))%step.

(** Lines 135-140. *)
Definition load_updater_interval : step :=
  when (IsSet "clair.database.updater.interval")
    (assign_duration set_Updater_Interval
       (GetString "clair.database.updater.interval") ;;
     return_if_err)%step.

(** Lines 144-146. *)
Definition load_notifier_attempts : step :=
  when (IsSet "clair.database.notifier.attempts")
    (assign (set_Notifier_Attempts (GetInt "clair.database.updater.attempts"))).

(** Lines 147-152. *)
Definition load_notifier_renotifyinterval : step :=
  when (IsSet "clair.database.notifier.renotifyinterval")
    (assign_duration set_Notifier_RenotifyInterval
       (GetString "clair.database.updater.renotifyinterval") ;;
     return_if_err)%step.

(** Lines 153-157. *)
Definition load_notifier_http : step :=
  when (IsSet "clair.database.notifier.http")
    (assign_through_config
       (put_Notifier_Param "http" (GetString "clair.database.updater.http"))).

(** Lines 162-166: [err = key.Generate()], return on failure, else store
    the encoded key. *)
Definition generate_paginationkey : step :=
  fun l =>
    let '(key, e) := fernet.Generate w in
    (return_if_err ;;
     assign (put_Database_Option "paginationkey" (fernet.Encode key)))%step
      (set_err e l).

(** Lines 168-173. *)
Definition check_paginationkey : step :=
  (assign_through_config
     (put_Database_Option "paginationkey" (GetString "paginationkey")) ;;
   (fun l =>
      Next (set_err (snd (fernet.fernet_DecodeKey (GetString "paginationkey"))) l)) ;;
   (fun l => match err l with
             | Some _ => return_ (set_err (Some ErrInvalidPaginationKey) l)
             | None => Next l
             end))%step.

(** Lines 159-174. *)
Definition ensure_paginationkey : step :=
  if negb (IsSet "clair.database.options.paginationkey")
  then generate_paginationkey
  else check_paginationkey.

(** Lines 175-176. *)
Definition return_cfgFile : step :=
  fun l => return_ (set_config (Some (cfgFile l)) l).

(** Lines 91-176: everything after the resolver is set up. *)
Definition resolve : step :=
  (init_cfgFile ;;
   load_database ;;
   load_api_healthport ;;
   load_api_timeout ;;
   load_api_files ;;
   load_updater_interval ;;
   load_notifier_attempts ;;
   load_notifier_renotifyinterval ;;
   load_notifier_http ;;
   ensure_paginationkey ;;
   return_cfgFile)%step.

End Statements.

(** Lines 79-88: create and fill the process-wide resolver on the first call
    only, then (re)apply the environment settings. The result of
    [ReadInConfig] lands in [err] and is not inspected. *)
Definition setup (w : World) (g : Globals) (path : string)
  : viper.Viper * option error :=
  let '(v, e) :=
    match clairConfig g with
    | None =>
        viper.ReadInConfig w
          (viper.SetConfigFile path (viper.SetConfigName "clair" viper.New))
    | Some v => (v, None)
    end in
  (viper.AutomaticEnv (viper.SetEnvPrefix "clair" v), e).

(** LoadConfig is a shortcut to open a file, read it, and generate a Config. *)
Definition LoadConfig `{Extern} (w : World) (g : Globals) (path : string)
  : Globals * Outcome :=
  let '(v, e) := setup w g path in
  ({| clairConfig := Some v |},
   run (resolve w v) {| config := None; err := e; cfgFile := ZeroConfig |}).

(** ** Reference instances of the library functions

    Concrete stand-ins used to run [LoadConfig] on examples. They cover the
    plain fragment of each library function: durations written as
    [[-+]?([0-9]+unit)+] (error texts as current Go releases word them),
    decimal integers without a leading zero, and URL-safe base64 keys. *)

Module reference.

Definition dquote : ascii := ascii_of_N 34.

(** [quote]: the text between double quotes. *)
Definition quote (s : string) : string :=
  String dquote (s ++ String dquote EmptyString).

Definition is_digit (c : ascii) : bool :=
  let n := N_of_ascii c in ((48 <=? n) && (n <=? 57))%N.

Definition digit_value (c : ascii) : Z := Z.of_N (N_of_ascii c) - 48.

(** [leadingInt]: consume [[0-9]*]. *)
Fixpoint leadingInt (s : list ascii) (x : Z) : Z * list ascii :=
  match s with
  | c :: r => if is_digit c then leadingInt r (x * 10 + digit_value c) else (x, s)
  | [] => (x, [])
  end.

(** The unit: everything up to the next digit or period. *)
Fixpoint leadingUnit (s : list ascii) : list ascii * list ascii :=
  match s with
  | c :: r =>
      if is_digit c || Ascii.eqb c "."%char then ([], s)
      else let '(u, rest) := leadingUnit r in (c :: u, rest)
  | [] => ([], [])
  end.

Definition unitMap (u : string) : option Z :=
  if decide (u = "ns") then Some time.Nanosecond
  else if decide (u = "us") then Some time.Microsecond
  else if decide (u = "ms") then Some time.Millisecond
  else if decide (u = "s") then Some time.Second
  else if decide (u = "m") then Some time.Minute
  else if decide (u = "h") then Some time.Hour
  else None.

Definition invalid (orig : string) : string :=
  "time: invalid duration " ++ quote orig.

(** The loop over [number unit] groups; every round consumes a character. *)
Fixpoint groups (fuel : nat) (orig : string) (s : list ascii) (d : Z)
  : Z + string :=
  match fuel, s with
  | _, [] => inl d
  | O, _ => inr (invalid orig)
  | S fuel', c :: _ =>
      if negb (is_digit c) then inr (invalid orig)
      else
        let '(x, s1) := leadingInt s 0 in
        let '(u, s2) := leadingUnit s1 in
        match u with
        | [] => inr ("time: missing unit in duration " ++ quote orig)
        | _ =>
            match unitMap (string_of_list_ascii u) with
            | None =>
                inr ("time: unknown unit " ++ quote (string_of_list_ascii u)
                       ++ " in duration " ++ quote orig)
            | Some unit =>
                if (2 ^ 63 <? d + x * unit)%Z then inr (invalid orig)
                else groups fuel' orig s2 (d + x * unit)
            end
        end
  end.

Definition ParseDuration (orig : string) : time.Duration + string :=
  let s := list_ascii_of_string orig in
  let '(neg, s) :=
    match s with
    | c :: r =>
        if Ascii.eqb c "-"%char then (true, r)
        else if Ascii.eqb c "+"%char then (false, r)
        else (false, s)
    | [] => (false, s)
    end in
  if decide (s = ["0"%char]) then inl 0
  else if decide (s = []) then inr (invalid orig)
  else
    match groups (length s) orig s 0 with
    | inl d =>
        if neg then inl (- d)
        else if (2 ^ 63 - 1 <? d)%Z then inr (invalid orig) else inl d
    | inr msg => inr msg
    end.

(** Decimal [strconv.ParseInt]. *)
Definition ParseInt (orig : string) : option Z :=
  let s := list_ascii_of_string orig in
  let '(neg, s) :=
    match s with
    | c :: r =>
        if Ascii.eqb c "-"%char then (true, r)
        else if Ascii.eqb c "+"%char then (false, r)
        else (false, s)
    | [] => (false, s)
    end in
  match s with
  | [] => None
  | c :: r =>
      if Ascii.eqb c "0"%char && negb (bool_decide (r = [])) then None
      else
        match leadingInt s 0 with
        | (x, []) =>
            let n := if neg then - x else x in
            if ((- 2 ^ 63 <=? n) && (n <? 2 ^ 63))%Z then Some n else None
        | _ => None
        end
  end.

(** [fernet.DecodeKey] on URL-safe base64 text. *)
Definition DecodeKey (s : string) : list Byte.byte + string :=
  if decide (s = "") then inr "empty key"
  else
    match base64.DecodeString s with
    | Some b =>
        if decide (length b = fernet.KeyLen) then inl b
        else inr "fernet: key decodes to wrong size"
    | None => inr "illegal base64 data"
    end.

#[global] Instance extern : Extern :=
  Build_Extern ParseDuration ParseInt DecodeKey.

End reference.

(** ** Example worlds *)

Module examples.

Import reference.

(** Thirty-two bytes of entropy. *)
Definition entropy32 : list Byte.byte :=
  [Byte.x00; Byte.x01; Byte.x02; Byte.x03; Byte.x04; Byte.x05; Byte.x06; Byte.x07;
   Byte.x08; Byte.x09; Byte.x0a; Byte.x0b; Byte.x0c; Byte.x0d; Byte.x0e; Byte.x0f;
   Byte.xf0; Byte.xf1; Byte.xf2; Byte.xf3; Byte.xf4; Byte.xf5; Byte.xf6; Byte.xf7;
   Byte.xf8; Byte.xf9; Byte.xfa; Byte.xfb; Byte.xfc; Byte.xfd; Byte.xfe; Byte.xff].

Definition config_yaml : string := "/etc/clair/config.yaml".

(** One configuration file at [config_yaml] with the given contents, and
    the given environment. *)
Definition world (file : list (string * value)) (env : list (string * string))
  : World :=
  {| files := {[ config_yaml := list_to_map file ]};
     environ := list_to_map env;
     entropy := entropy32 |}.

(** No file at all. *)
Definition world_env (env : list (string * string)) : World :=
  {| files := ∅; environ := list_to_map env; entropy := entropy32 |}.

End examples.

(** ** Vocabulary of the statements below *)

(** The resolver a call of [LoadConfig] works with. *)
Definition resolver (w : World) (g : Globals) (path : string) : viper.Viper :=
  fst (setup w g path).

(** The name of the environment variable consulted for a key once the prefix
    "clair" is set: for instance [CLAIR_CLAIR.DATABASE.TYPE]. *)
Definition envName (key : string) : string :=
  Strings.ToUpper ("clair_" ++ key).

(** The environment's value for a key, if it supplies one. *)
Definition env_override (w : World) (key : string) : option string :=
  let s := viper.getEnv w (envName key) in
  if decide (s = "") then None else Some s.


(** [c.Database.Options[k] = x] when the environment supplies [x]. *)
Definition put_if (k : string) (x : option string) (m : gmap string string)
  : gmap string string :=
  match x with Some s => <[k := s]> m | None => m end.



(** A string is the URL-safe base64 text of a key of the required length. *)
Definition valid_key_text (s : string) : Prop :=
  exists key : list Byte.byte,
    base64.DecodeString s = Some key /\ length key = fernet.KeyLen.

(** The call ended without handing out a configuration: it returned the
    error of a duration parse or of the entropy read, or it panicked. *)
Definition aborted (o : Outcome) : Prop :=
  match o with
  | Returned None (Some (ErrParseDuration _)) => True
  | Returned None (Some ErrRandRead) => True
  | Panicked _ => True
  | Returned _ _ => False
  end.

(** From locals satisfying [P], a statement falls through into [Q] or ends
    the call with an outcome in [R]. *)
Definition triple (P : Locals -> Prop) (s : step) (Q : Locals -> Prop)
    (R : Outcome -> Prop) : Prop :=
  forall l, P l ->
    match s l with
    | Next l' => Q l'
    | Stop o => R o
    end.

(** Two runs of a statement from locals related by [P] fall through into
    locals related by [Q], or end the call alike. *)
Definition sim (P : Locals -> Locals -> Prop) (s : step)
    (Q : Locals -> Locals -> Prop) : Prop :=
  forall l1 l2, P l1 l2 ->
    match s l1, s l2 with
    | Next a, Next b => Q a b
    | Stop o1, Stop o2 => o1 = o2
    | _, _ => False
    end.

(** Locals that agree except possibly on [err]. *)
Definition same_but_err (l1 l2 : Locals) : Prop :=
  config l1 = config l2 /\ cfgFile l1 = cfgFile l2.

(** The result pointer is still nil and a property of [cfgFile.Clair] holds. *)
Definition holding (Inv : Config -> Prop) (l : Locals) : Prop :=
  config l = None /\ Inv (cfgFile l).


(** The locals once [ensure_paginationkey] has fallen through: the key was
    generated from the entropy and stored. *)
Definition key_generated (w : World) (v : viper.Viper) (Inv : Config -> Prop)
    (l : Locals) : Prop :=
  holding Inv l /\ err l = None /\
  viper.IsSet w v "clair.database.options.paginationkey" = false /\
  (fernet.KeyLen <= length (entropy w))%nat /\
  Options (Database (cfgFile l)) !! "paginationkey"
    = Some (fernet.Encode (take fernet.KeyLen (entropy w))).

(** How a call can end: aborted, or with a nil error and a configuration
    that satisfies [Inv] and carries the generated key. *)
Definition finished (w : World) (v : viper.Viper) (Inv : Config -> Prop)
    (o : Outcome) : Prop :=
  aborted o \/
  exists c, o = Returned (Some c) None /\ Inv c /\
    viper.IsSet w v "clair.database.options.paginationkey" = false /\
    (fernet.KeyLen <= length (entropy w))%nat /\
    Options (Database c) !! "paginationkey"
      = Some (fernet.Encode (take fernet.KeyLen (entropy w))).



(** ** The closed form of a call *)

Section ClosedForm.

Context `{Extern}.
Variable w : World.
Variable v : viper.Viper.

(** What a guarded duration statement leaves in its field: the default when
    the guard key is unset, else the parse of the text it reads. *)
Definition duration_setting (guard read : string) (dflt : time.Duration)
  : time.Duration + string :=
  if viper.IsSet w v guard then ParseDuration (viper.GetString w v read)
  else inl dflt.

Definition timeout_setting : time.Duration + string :=
  duration_setting "clair.database.api.timeout" "clair.database.api.timeout"
    (Timeout (API DefaultConfig)).

Definition interval_setting : time.Duration + string :=
  duration_setting "clair.database.updater.interval"
    "clair.database.updater.interval" (Interval (Updater DefaultConfig)).

Definition renotify_setting : time.Duration + string :=
  duration_setting "clair.database.notifier.renotifyinterval"
    "clair.database.updater.renotifyinterval"
    (RenotifyInterval (Notifier DefaultConfig)).

(** All three duration statements fall through. *)
Definition durations_parse : Prop :=
  (exists d, timeout_setting = inl d) /\
  (exists d, interval_setting = inl d) /\
  (exists d, renotify_setting = inl d).

(** A statement that writes through the result pointer is reached. *)
Definition writes_through_config : bool :=
  viper.IsSet w v "clair.database.notifier.http"
  || viper.IsSet w v "clair.database.options.paginationkey".

(** The text a guarded string statement stores, if its key is set. *)
Definition string_setting (key : string) : option string :=
  if viper.IsSet w v key then Some (viper.GetString w v key) else None.

(** The configuration handed out by a call whose three durations came out
    as given. *)
Definition loaded (timeout interval renotify : time.Duration) : Config :=
  {| Database :=
       {| Type_ := default "pgsql" (string_setting "clair.database.type");
          Options :=
            <["paginationkey" := fernet.Encode (take fernet.KeyLen (entropy w))]>
              (put_if "cachesize"
                 (string_setting "clair.database.options.cachesize")
                 (put_if "source"
                    (string_setting "clair.database.options.source") ∅)) |};
     Updater := {| Interval := interval |};
     Notifier :=
       {| Attempts :=
            if viper.IsSet w v "clair.database.notifier.attempts"
            then viper.GetInt w v "clair.database.updater.attempts" else 5;
          RenotifyInterval := renotify;
          Params := ∅ |};
     API :=
       {| Port := 6060;
          HealthPort :=
            if viper.IsSet w v "clair.database.api.healthaddr"
            then viper.GetInt w v "clair.database.api.healthport" else 6061;
          Timeout := timeout;
          CAFile := default "" (string_setting "clair.database.api.cafile");
          KeyFile := default "" (string_setting "clair.database.api.keyfile");
          CertFile := default "" (string_setting "clair.database.api.certfile") |} |}.

(** The outcome of lines 91-176 in one expression: the first duration that
    does not parse is returned; else a reached write through [config]
    panics; else the key is generated, or the entropy read fails. *)
Definition outcome_of : Outcome :=
  match timeout_setting with
  | inr msg => Returned None (Some (ErrParseDuration msg))
  | inl timeout =>
      match interval_setting with
      | inr msg => Returned None (Some (ErrParseDuration msg))
      | inl interval =>
          match renotify_setting with
          | inr msg => Returned None (Some (ErrParseDuration msg))
          | inl renotify =>
              if writes_through_config then Panicked nil_dereference
              else if (fernet.KeyLen <=? length (entropy w))%nat
              then Returned (Some (loaded timeout interval renotify)) None
              else Returned None (Some ErrRandRead)
          end
      end
  end.

End ClosedForm.

(** The keys whose values can reach the outcome of a call. *)
Definition consulted_keys : list string :=
  [ "clair.database.type";
    "clair.database.options.source";
    "clair.database.options.cachesize";
    "clair.database.options.paginationkey";
    "clair.database.api.healthaddr";
    "clair.database.api.healthport";
    "clair.database.api.timeout";
    "clair.database.api.cafile";
    "clair.database.api.keyfile";
    "clair.database.api.certfile";
    "clair.database.updater.interval";
    "clair.database.notifier.attempts";
    "clair.database.updater.attempts";
    "clair.database.notifier.renotifyinterval";
    "clair.database.updater.renotifyinterval";
    "clair.database.notifier.http" ].


(** ** More example inputs *)

Module more_examples.

(** A file that sets some consulted keys, and one key outside them. *)
Definition sample_file : list (string * value) :=
  [ ("clair.database.type", VString "mysql");
    ("clair.database.options.source", VString "host=db dbname=clair");
    ("clair.database.api.healthaddr", VString "0.0.0.0:6061");
    ("clair.database.api.healthport", VInt 7071);
    ("clair.database.api.timeout", VString "30s");
    ("clair.database.api.port", VInt 7070) ].


(** The world of [examples.world] with other entropy. *)
Definition world_with_entropy (r : list Byte.byte) : World :=
  {| files := ∅; environ := ∅; entropy := r |}.

End more_examples.

(** * Properties *)

(** ** URL-safe base64: decoding undoes encoding *)

Module base64_facts.

Import base64.
Local Open Scope N_scope.

Lemma decode_encode_digit i : i < 64 -> decode_digit (encode_digit i) = Some i.
Proof.
  intros Hi. destruct i as [|p]; [reflexivity|].
  do 6 (try destruct p as [p|p|]); try reflexivity; lia.
Qed.

Lemma padding_not_digit : decode_digit StdPadding = None.
Proof. reflexivity. Qed.

(** Bitwise or is addition when the operands occupy different bits. *)
Lemma lor_disjoint x y k : x mod 2 ^ k = 0 -> y < 2 ^ k -> N.lor x y = x + y.
Proof.
  intros Hx Hy. rewrite N.add_nocarry_lxor, N.lxor_lor; auto.
  all: apply N.bits_inj; intros n; rewrite N.land_spec, N.bits_0.
  all: destruct (N.lt_ge_cases n k) as [Hn|Hn].
  all: try (rewrite <- (N.mod_pow2_bits_low x k n Hn), Hx, N.bits_0; reflexivity).
  all: rewrite <- (N.mod_small y (2^k) Hy), N.mod_pow2_bits_high by assumption.
  all: apply andb_false_r.
Qed.

Ltac euclid := zify; Z.to_euclidean_division_equations; lia.

Ltac powers :=
  change (2 ^ 18) with 262144; change (2 ^ 16) with 65536;
  change (2 ^ 12) with 4096; change (2 ^ 8) with 256;
  change (2 ^ 6) with 64; change (2 ^ 0) with 1.

Lemma byte_bound (b : Byte.byte) : Byte.to_N b < 256.
Proof. pose proof (Byte.to_N_bounded b). lia. Qed.

Lemma byte_of_N_eq n b : n mod 256 = Byte.to_N b -> byte_of_N n = b.
Proof. intros E. unfold byte_of_N. rewrite E, Byte.of_to_N. reflexivity. Qed.

Lemma pack3_value a b c :
  pack3 a b c = Byte.to_N a * 65536 + Byte.to_N b * 256 + Byte.to_N c.
Proof.
  pose proof (byte_bound a). pose proof (byte_bound b). pose proof (byte_bound c).
  unfold pack3. rewrite !N.shiftl_mul_pow2. powers.
  rewrite (lor_disjoint (Byte.to_N a * 65536) (Byte.to_N b * 256) 16),
    (lor_disjoint _ _ 8); powers; try lia; euclid.
Qed.

Lemma pack3_bound a b c : pack3 a b c < 16777216.
Proof.
  pose proof (byte_bound a). pose proof (byte_bound b). pose proof (byte_bound c).
  rewrite pack3_value. lia.
Qed.

Lemma sextet_value val k : sextet val k = (val / 2 ^ k) mod 64.
Proof.
  unfold sextet. rewrite N.shiftr_div_pow2. change 63 with (N.ones 6).
  rewrite N.land_ones. reflexivity.
Qed.

Lemma sextet_bound val k : sextet val k < 64.
Proof. rewrite sextet_value. apply N.mod_lt. discriminate. Qed.

Lemma decode_digit_sextet val k : decode_digit (digit val k) = Some (sextet val k).
Proof. apply decode_encode_digit, sextet_bound. Qed.

Lemma unpack_value d1 d2 d3 d4 :
  d1 < 64 -> d2 < 64 -> d3 < 64 -> d4 < 64 ->
  unpack d1 d2 d3 d4 = d1 * 262144 + d2 * 4096 + d3 * 64 + d4.
Proof.
  intros. unfold unpack. rewrite !N.shiftl_mul_pow2. powers.
  rewrite (lor_disjoint (d1 * 262144) _ 18), (lor_disjoint _ (d3 * 64) 12),
    (lor_disjoint _ d4 6); powers; try lia; euclid.
Qed.

(** The four digits of a 24-bit value put it together again. *)
Lemma unpack_sextets val :
  val < 16777216 ->
  unpack (sextet val 18) (sextet val 12) (sextet val 6) (sextet val 0) = val.
Proof.
  intros Hv. rewrite unpack_value by apply sextet_bound.
  rewrite !sextet_value. powers. euclid.
Qed.

Lemma decode_encode_three a b c :
  let val := pack3 a b c in
  byte_of_N (N.shiftr val 16) = a /\ byte_of_N (N.shiftr val 8) = b /\
  byte_of_N val = c.
Proof.
  pose proof (byte_bound a). pose proof (byte_bound b). pose proof (byte_bound c).
  cbv zeta. rewrite pack3_value, !N.shiftr_div_pow2. powers.
  repeat split; apply byte_of_N_eq; euclid.
Qed.

Lemma decode_encode_two a b :
  let val := N.lor (N.shiftl (Byte.to_N a) 16) (N.shiftl (Byte.to_N b) 8) in
  let val' := unpack (sextet val 18) (sextet val 12) (sextet val 6) 0 in
  byte_of_N (N.shiftr val' 16) = a /\ byte_of_N (N.shiftr val' 8) = b.
Proof.
  pose proof (byte_bound a). pose proof (byte_bound b). cbv zeta.
  rewrite unpack_value by (try apply sextet_bound; lia).
  rewrite !sextet_value, !N.shiftl_mul_pow2, !N.shiftr_div_pow2.
  rewrite (lor_disjoint _ _ 16).
  2,3: powers; euclid.
  powers. split; apply byte_of_N_eq; euclid.
Qed.

Lemma decode_encode_one a :
  let val := N.shiftl (Byte.to_N a) 16 in
  byte_of_N (N.shiftr (unpack (sextet val 18) (sextet val 12) 0 0) 16) = a.
Proof.
  pose proof (byte_bound a). cbv zeta.
  rewrite unpack_value by (try apply sextet_bound; lia).
  rewrite !sextet_value, N.shiftl_mul_pow2, N.shiftr_div_pow2. powers.
  apply byte_of_N_eq. euclid.
Qed.

Lemma decode_quantum c1 c2 c3 c4 rest :
  decode (c1 :: c2 :: c3 :: c4 :: rest) =
  match decode_digit c1, decode_digit c2 with
  | Some d1, Some d2 =>
      match decode_digit c3, decode_digit c4 with
      | Some d3, Some d4 =>
          let val := unpack d1 d2 d3 d4 in
          match decode rest with
          | Some out =>
              Some (byte_of_N (N.shiftr val 16) :: byte_of_N (N.shiftr val 8)
                      :: byte_of_N val :: out)
          | None => None
          end
      | Some d3, None =>
          if Ascii.eqb c4 StdPadding && bool_decide (rest = []) then
            let val := unpack d1 d2 d3 0 in
            Some [byte_of_N (N.shiftr val 16); byte_of_N (N.shiftr val 8)]
          else None
      | None, _ =>
          if Ascii.eqb c3 StdPadding && Ascii.eqb c4 StdPadding
             && bool_decide (rest = []) then
            Some [byte_of_N (N.shiftr (unpack d1 d2 0 0) 16)]
          else None
      end
  | _, _ => None
  end.
Proof. reflexivity. Qed.

(** Induction over a list three elements at a time. *)
Lemma list_ind3 {A} (P : list A -> Prop) :
  P [] -> (forall a, P [a]) -> (forall a b, P [a; b]) ->
  (forall a b c l, P l -> P (a :: b :: c :: l)) ->
  forall l, P l.
Proof.
  intros H0 H1 H2 H3 l.
  enough (P l /\ (forall a, P (a :: l)) /\ (forall a b, P (a :: b :: l))) by tauto.
  induction l as [|x l (IH0 & IH1 & IH2)]; auto.
Qed.

Lemma decode_encode src : decode (encode src) = Some src.
Proof.
  induction src as [|a|a b|a b c rest IH] using list_ind3.
  - reflexivity.
  - cbn [encode]. rewrite decode_quantum, !decode_digit_sextet, padding_not_digit.
    cbn -[unpack sextet byte_of_N N.shiftr N.shiftl].
    rewrite decode_encode_one. reflexivity.
  - cbn [encode]. rewrite decode_quantum, !decode_digit_sextet, padding_not_digit.
    cbn -[unpack sextet byte_of_N N.shiftr N.shiftl N.lor].
    destruct (decode_encode_two a b) as (-> & ->). reflexivity.
  - cbn [encode]. rewrite decode_quantum, !decode_digit_sextet, IH.
    cbv zeta. rewrite unpack_sextets by apply pack3_bound.
    destruct (decode_encode_three a b c) as (-> & -> & ->). reflexivity.
Qed.

Lemma DecodeString_EncodeToString src :
  DecodeString (EncodeToString src) = Some src.
Proof.
  unfold DecodeString, EncodeToString.
  rewrite list_ascii_of_string_of_list_ascii. apply decode_encode.
Qed.

End base64_facts.

(** A key generated from enough entropy has a valid text. *)
Lemma generated_key_valid (r : list Byte.byte) :
  (fernet.KeyLen <= length r)%nat ->
  valid_key_text (fernet.Encode (take fernet.KeyLen r)).
Proof.
  intros Hr. exists (take fernet.KeyLen r). split.
  - apply base64_facts.DecodeString_EncodeToString.
  - rewrite length_take. lia.
Qed.

(** ** Reasoning about statements *)



Lemma triple_seq P Q Q' R (s t : step) :
  triple P s Q R -> triple Q t Q' R -> triple P (s ;; t)%step Q' R.
Proof.
  intros Hs Ht l Hl. unfold seq. specialize (Hs l Hl).
  destruct (s l) as [l'|o]; [apply Ht, Hs | exact Hs].
Qed.

Lemma triple_when P R (cond : bool) (s : step) :
  triple P s P R -> triple P (when cond s) P R.
Proof. intros Hs l Hl. destruct cond; cbn; [apply Hs, Hl | exact Hl]. Qed.

Lemma triple_weaken (P P' Q Q' : Locals -> Prop) (R R' : Outcome -> Prop) s :
  triple P s Q R ->
  (forall l, P' l -> P l) -> (forall l, Q l -> Q' l) -> (forall o, R o -> R' o) ->
  triple P' s Q' R'.
Proof.
  intros Hs HP HQ HR l Hl. specialize (Hs l (HP l Hl)).
  destruct (s l); auto.
Qed.

Lemma triple_run P Q R s l :
  triple P s Q R -> P l ->
  (forall l', Q l' -> R (Returned (config l') (err l'))) ->
  R (run s l).
Proof.
  intros Hs Hl HQ. unfold run. specialize (Hs l Hl).
  destruct (s l); auto.
Qed.





Lemma triple_assign (Inv Inv' : Config -> Prop) R f :
  (forall c, Inv c -> Inv' (f c)) ->
  triple (holding Inv) (assign f) (holding Inv') R.
Proof. intros Hf l [Hc Hl]. split; cbn; auto. Qed.

Lemma triple_assign_duration `{Extern} (Inv : Config -> Prop) f s :
  (forall d c, Inv c -> Inv (f d c)) ->
  triple (holding Inv) (assign_duration f s ;; return_if_err)%step
    (holding Inv) aborted.
Proof.
  intros Hf l [Hc Hl].
  unfold seq, assign_duration, time_ParseDuration, return_if_err, return_.
  destruct (ParseDuration s); cbn.
  - split; cbn; auto.
  - rewrite Hc. exact I.
Qed.

(** A write through the result pointer panics as long as the pointer is nil. *)
Lemma triple_assign_through_config (Inv : Config -> Prop) Q f :
  triple (holding Inv) (assign_through_config f) Q aborted.
Proof. intros l [Hc Hl]. unfold assign_through_config. rewrite Hc. exact I. Qed.


(** ** What every statement of [LoadConfig] maintains *)

Section Invariants.

Context `{Extern}.
Variable w : World.
Variable v : viper.Viper.
Variable Inv : Config -> Prop.

Hypothesis Inv_Database_Type : forall x c, Inv c -> Inv (set_Database_Type x c).
Hypothesis Inv_Database_Option :
  forall k x c, Inv c -> Inv (put_Database_Option k x c).
Hypothesis Inv_API_HealthPort :
  viper.IsSet w v "clair.database.api.healthaddr" = true ->
  forall c, Inv c ->
    Inv (set_API_HealthPort (viper.GetInt w v "clair.database.api.healthport") c).
Hypothesis Inv_API_Timeout : forall x c, Inv c -> Inv (set_API_Timeout x c).
Hypothesis Inv_API_CAFile : forall x c, Inv c -> Inv (set_API_CAFile x c).
Hypothesis Inv_API_KeyFile : forall x c, Inv c -> Inv (set_API_KeyFile x c).
Hypothesis Inv_API_CertFile : forall x c, Inv c -> Inv (set_API_CertFile x c).
Hypothesis Inv_Updater_Interval :
  forall x c, Inv c -> Inv (set_Updater_Interval x c).
Hypothesis Inv_Notifier_Attempts :
  viper.IsSet w v "clair.database.notifier.attempts" = true ->
  forall c, Inv c ->
    Inv (set_Notifier_Attempts
           (viper.GetInt w v "clair.database.updater.attempts") c).
Hypothesis Inv_Notifier_RenotifyInterval :
  forall x c, Inv c -> Inv (set_Notifier_RenotifyInterval x c).

Ltac pure_steps :=
  repeat first
    [ apply triple_seq with (Q := holding Inv)
    | apply triple_when
    | apply triple_assign ];
  auto.

Lemma init_cfgFile_holding R :
  Inv (set_Database_Options ∅ DefaultConfig) ->
  triple (fun l => config l = None) init_cfgFile (holding Inv) R.
Proof. intros H0 l Hl. split; [exact Hl | exact H0]. Qed.

Lemma load_database_holding R :
  triple (holding Inv) (load_database w v) (holding Inv) R.
Proof. unfold load_database. pure_steps. Qed.

Lemma load_api_healthport_holding R :
  triple (holding Inv) (load_api_healthport w v) (holding Inv) R.
Proof.
  unfold load_api_healthport.
  destruct (viper.IsSet w v "clair.database.api.healthaddr") eqn:E; cbn.
  - apply triple_assign. auto.
  - intros l Hl. exact Hl.
Qed.

Lemma load_api_timeout_holding :
  triple (holding Inv) (load_api_timeout w v) (holding Inv) aborted.
Proof. apply triple_when, triple_assign_duration. auto. Qed.

Lemma load_api_files_holding R :
  triple (holding Inv) (load_api_files w v) (holding Inv) R.
Proof. unfold load_api_files. pure_steps. Qed.

Lemma load_updater_interval_holding :
  triple (holding Inv) (load_updater_interval w v) (holding Inv) aborted.
Proof. apply triple_when, triple_assign_duration. auto. Qed.

Lemma load_notifier_attempts_holding R :
  triple (holding Inv) (load_notifier_attempts w v) (holding Inv) R.
Proof.
  unfold load_notifier_attempts.
  destruct (viper.IsSet w v "clair.database.notifier.attempts") eqn:E; cbn.
  - apply triple_assign. auto.
  - intros l Hl. exact Hl.
Qed.

Lemma load_notifier_renotifyinterval_holding :
  triple (holding Inv) (load_notifier_renotifyinterval w v) (holding Inv) aborted.
Proof. apply triple_when, triple_assign_duration. auto. Qed.

(** The notifier.http statement can only be skipped or panic. *)
Lemma load_notifier_http_holding :
  triple (holding Inv) (load_notifier_http w v) (holding Inv) aborted.
Proof. apply triple_when, triple_assign_through_config. Qed.

(** The key statement falls through only by generating a key; with a
    configured key it panics on its first write. *)
Lemma ensure_paginationkey_holding :
  triple (holding Inv) (ensure_paginationkey w v) (key_generated w v Inv) aborted.
Proof.
  intros l [Hc Hl]. unfold ensure_paginationkey.
  destruct (viper.IsSet w v "clair.database.options.paginationkey") eqn:E;
    cbn [negb].
  - unfold check_paginationkey, seq, assign_through_config. rewrite Hc. exact I.
  - unfold generate_paginationkey, fernet.Generate.
    destruct (fernet.KeyLen <=? length (entropy w))%nat eqn:El;
      unfold seq, return_if_err, return_, set_err, assign; cbn [err config cfgFile].
    + rewrite Nat.leb_le in El.
      split; [split; [exact Hc | apply Inv_Database_Option, Hl] |].
      repeat split; auto. apply lookup_insert_eq.
    + rewrite Hc. exact I.
Qed.

Lemma return_cfgFile_holding :
  triple (key_generated w v Inv) return_cfgFile (fun _ => False) (finished w v Inv).
Proof.
  intros l ([Hc Hl] & He & Hs & Hn & Hk). cbn. right.
  exists (cfgFile l). rewrite He. auto.
Qed.

Lemma aborted_finished P Q s :
  triple P s Q aborted -> triple P s Q (finished w v Inv).
Proof.
  intros Hs. apply (triple_weaken P P Q Q aborted (finished w v Inv) s Hs); auto.
  intros o Ho. left. exact Ho.
Qed.

(** Lines 110-176, from locals in which [Inv] already holds. *)
Lemma after_database_holding :
  triple (holding Inv)
    (load_api_healthport w v ;; load_api_timeout w v ;; load_api_files w v ;;
     load_updater_interval w v ;; load_notifier_attempts w v ;;
     load_notifier_renotifyinterval w v ;; load_notifier_http w v ;;
     ensure_paginationkey w v ;; return_cfgFile)%step
    (fun _ => False) (finished w v Inv).
Proof.
  apply triple_seq with (Q := holding Inv); [apply load_api_healthport_holding|].
  apply triple_seq with (Q := holding Inv);
    [apply aborted_finished, load_api_timeout_holding|].
  apply triple_seq with (Q := holding Inv); [apply load_api_files_holding|].
  apply triple_seq with (Q := holding Inv);
    [apply aborted_finished, load_updater_interval_holding|].
  apply triple_seq with (Q := holding Inv); [apply load_notifier_attempts_holding|].
  apply triple_seq with (Q := holding Inv);
    [apply aborted_finished, load_notifier_renotifyinterval_holding|].
  apply triple_seq with (Q := holding Inv);
    [apply aborted_finished, load_notifier_http_holding|].
  apply triple_seq with (Q := key_generated w v Inv);
    [apply aborted_finished, ensure_paginationkey_holding|].
  apply return_cfgFile_holding.
Qed.

Lemma resolve_holding :
  Inv (set_Database_Options ∅ DefaultConfig) ->
  triple (fun l => config l = None) (resolve w v) (fun _ => False)
    (finished w v Inv).
Proof.
  intros H0. unfold resolve.
  apply triple_seq with (Q := holding Inv); [apply init_cfgFile_holding, H0|].
  apply triple_seq with (Q := holding Inv); [apply load_database_holding|].
  apply after_database_holding.
Qed.

End Invariants.

(** ** The initial value of [err] is never seen *)

Lemma sim_seq P Q Q' (s t : step) :
  sim P s Q -> sim Q t Q' -> sim P (s ;; t)%step Q'.
Proof.
  intros Hs Ht l1 l2 Hl. unfold seq. specialize (Hs l1 l2 Hl).
  destruct (s l1), (s l2); try contradiction; [apply Ht, Hs | exact Hs].
Qed.

Lemma sim_when P (cond : bool) (s : step) : sim P s P -> sim P (when cond s) P.
Proof. intros Hs l1 l2 Hl. destruct cond; cbn; [apply Hs, Hl | exact Hl]. Qed.

Lemma sim_assign f : sim same_but_err (assign f) same_but_err.
Proof. intros l1 l2 [Hc Hf]. split; cbn; congruence. Qed.

Lemma sim_assign_duration `{Extern} f s :
  sim same_but_err (assign_duration f s ;; return_if_err)%step same_but_err.
Proof.
  intros l1 l2 [Hc Hf].
  unfold seq, assign_duration, time_ParseDuration, return_if_err, return_.
  destruct (ParseDuration s); cbn; [split; cbn|]; congruence.
Qed.

Lemma sim_assign_through_config f :
  sim same_but_err (assign_through_config f) same_but_err.
Proof.
  intros l1 l2 [Hc Hf]. unfold assign_through_config. rewrite <- Hc.
  destruct (config l1); [split; cbn; congruence | reflexivity].
Qed.

Section ErrIrrelevant.

Context `{Extern}.
Variable w : World.
Variable v : viper.Viper.

Ltac sim_steps :=
  repeat first
    [ apply sim_assign_duration
    | apply sim_when
    | apply sim_assign
    | apply sim_assign_through_config
    | apply sim_seq with (Q := same_but_err) ].

Lemma sim_init_cfgFile :
  sim (fun l1 l2 => config l1 = config l2) init_cfgFile same_but_err.
Proof. intros l1 l2 Hc. split; [exact Hc | reflexivity]. Qed.

(** Both branches of the key statement assign [err] before reading it. *)
Lemma sim_ensure_paginationkey :
  sim same_but_err (ensure_paginationkey w v) eq.
Proof.
  intros l1 l2 [Hc Hf]. unfold ensure_paginationkey.
  destruct (negb _).
  - unfold generate_paginationkey.
    destruct (fernet.Generate w) as [key [e|]]; cbn.
    + congruence.
    + unfold assign, set_err; cbn. congruence.
  - unfold check_paginationkey, seq, assign_through_config. rewrite <- Hc.
    destruct (config l1); [|reflexivity].
    cbn. destruct (snd _); cbn; [reflexivity|].
    unfold set_err, set_config; cbn. congruence.
Qed.

Lemma sim_resolve :
  sim (fun l1 l2 => config l1 = config l2) (resolve w v) eq.
Proof.
  unfold resolve.
  apply sim_seq with (Q := same_but_err); [apply sim_init_cfgFile|].
  do 8 (apply sim_seq with (Q := same_but_err);
        [unfold load_database, load_api_healthport, load_api_timeout,
           load_api_files, load_updater_interval, load_notifier_attempts,
           load_notifier_renotifyinterval, load_notifier_http; sim_steps|]).
  apply sim_seq with (Q := eq); [apply sim_ensure_paginationkey|].
  intros l1 l2 ->. reflexivity.
Qed.

Lemma run_resolve_err_irrelevant l1 l2 :
  config l1 = config l2 -> run (resolve w v) l1 = run (resolve w v) l2.
Proof.
  intros Hc. unfold run. pose proof (sim_resolve l1 l2 Hc) as Hs.
  destruct (resolve w v l1), (resolve w v l2); try contradiction; congruence.
Qed.

End ErrIrrelevant.

(** ** The resolver of a call *)

Lemma LoadConfig_unfold `{Extern} w g path :
  LoadConfig w g path =
  ({| clairConfig := Some (resolver w g path) |},
   run (resolve w (resolver w g path))
       {| config := None; err := snd (setup w g path); cfgFile := ZeroConfig |}).
Proof. unfold LoadConfig, resolver. destruct (setup w g path); reflexivity. Qed.

(** Only the environment and the entropy of the world matter once the
    resolver is set up. *)
Lemma resolve_world `{Extern} w w' v :
  environ w = environ w' -> entropy w = entropy w' ->
  resolve w v = resolve w' v.
Proof.
  destruct w as [f1 e1 r1], w' as [f2 e2 r2]; cbn; intros -> ->. reflexivity.
Qed.

(** First call: the file layer is the named file if it could be read, and
    empty otherwise; the empty path reads nothing. *)
Lemma resolver_fresh w path :
  resolver w fresh path =
  {| viper.configName := "clair"; viper.configFile := path;
     viper.config := if decide (path = "") then ∅ else default ∅ (files w !! path);
     viper.envPrefix := "CLAIR"; viper.automaticEnvApplied := true |}.
Proof.
  unfold resolver, setup, fresh; cbn.
  unfold viper.SetConfigFile, viper.ReadInConfig.
  destruct (decide (path = "")) as [->|Hp]; cbn; [reflexivity|].
  destruct (decide (path = "")); [contradiction|]. cbn.
  destruct (files w !! path); reflexivity.
Qed.

(** Later calls: the resolver is the one already there, whatever the path. *)
Lemma resolver_again w g path v :
  clairConfig g = Some v ->
  viper.envPrefix v = "CLAIR" -> viper.automaticEnvApplied v = true ->
  resolver w g path = v.
Proof.
  intros Hg Hp Ha. unfold resolver, setup. rewrite Hg.
  destruct v; cbn in *. subst. reflexivity.
Qed.

Lemma resolver_env w g path :
  viper.envPrefix (resolver w g path) = "CLAIR" /\
  viper.automaticEnvApplied (resolver w g path) = true.
Proof.
  unfold resolver, setup.
  destruct (clairConfig g); [|destruct (viper.ReadInConfig _ _)]; split; reflexivity.
Qed.

Lemma ToUpper_app s t :
  Strings.ToUpper (s ++ t) = Strings.ToUpper s ++ Strings.ToUpper t.
Proof.
  unfold Strings.ToUpper.
  induction s as [|c s IH]; [reflexivity|].
  change (String c s ++ t) with (String c (s ++ t)). cbn [Strings.map_string].
  rewrite IH. reflexivity.
Qed.

(** The variable consulted for a key is the one [envName] gives. *)
Lemma mergeWithEnvPrefix_envName v key :
  viper.envPrefix v = "CLAIR" -> viper.mergeWithEnvPrefix v key = envName key.
Proof.
  intros Hp. unfold viper.mergeWithEnvPrefix, envName. rewrite Hp.
  destruct (decide ("CLAIR" = "")) as [E|_]; [discriminate E|].
  change ("CLAIR" ++ "_" ++ key) with ("CLAIR_" ++ key).
  rewrite (ToUpper_app "CLAIR_"), (ToUpper_app "clair_"). reflexivity.
Qed.

(** Layer precedence of a lookup: the environment, then the file. *)
Lemma find_layers w v key :
  viper.envPrefix v = "CLAIR" -> viper.automaticEnvApplied v = true ->
  viper.find w v key =
  match env_override w key with
  | Some s => Some (VString s)
  | None => viper.config v !! key
  end.
Proof.
  intros Hp Ha. unfold viper.find, env_override.
  rewrite Ha, (mergeWithEnvPrefix_envName v key Hp).
  destruct (decide (viper.getEnv w (envName key) = "")); reflexivity.
Qed.



(** ** How a call of [LoadConfig] can end *)

Lemma LoadConfig_finished `{Extern} (Inv : Config -> Prop) w g path :
  let v := resolver w g path in
  (forall x c, Inv c -> Inv (set_Database_Type x c)) ->
  (forall k x c, Inv c -> Inv (put_Database_Option k x c)) ->
  (viper.IsSet w v "clair.database.api.healthaddr" = true ->
   forall c, Inv c ->
     Inv (set_API_HealthPort (viper.GetInt w v "clair.database.api.healthport") c)) ->
  (forall x c, Inv c -> Inv (set_API_Timeout x c)) ->
  (forall x c, Inv c -> Inv (set_API_CAFile x c)) ->
  (forall x c, Inv c -> Inv (set_API_KeyFile x c)) ->
  (forall x c, Inv c -> Inv (set_API_CertFile x c)) ->
  (forall x c, Inv c -> Inv (set_Updater_Interval x c)) ->
  (viper.IsSet w v "clair.database.notifier.attempts" = true ->
   forall c, Inv c ->
     Inv (set_Notifier_Attempts
            (viper.GetInt w v "clair.database.updater.attempts") c)) ->
  (forall x c, Inv c -> Inv (set_Notifier_RenotifyInterval x c)) ->
  Inv (set_Database_Options ∅ DefaultConfig) ->
  finished w v Inv (snd (LoadConfig w g path)).
Proof.
  intros v H1 H2 H3 H4 H5 H6 H7 H8 H9 H10 H0.
  rewrite LoadConfig_unfold. cbn [snd]. fold v.
  eapply triple_run; [apply (resolve_holding w v Inv); assumption | reflexivity |].
  intros l' [].
Qed.

(** A call aborts, or returns a configuration with a generated key and a
    nil error. *)
Lemma LoadConfig_outcomes `{Extern} w g path :
  finished w (resolver w g path) (fun _ => True) (snd (LoadConfig w g path)).
Proof. apply LoadConfig_finished; auto. Qed.

(** The only errors ever returned are those of a duration parse and of the
    entropy read, and they come without a configuration. In particular the
    error of [ReadInConfig], [ErrDatasourceNotLoaded] and the pagination-key
    validation error are never returned. *)
Lemma LoadConfig_error_kinds `{Extern} w g path cfg e :
  snd (LoadConfig w g path) = Returned cfg (Some e) ->
  cfg = None /\ (e = ErrRandRead \/ exists msg, e = ErrParseDuration msg).
Proof.
  intros Ho. destruct (LoadConfig_outcomes w g path) as [Ha | (c & Hc & _)].
  - rewrite Ho in Ha. destruct cfg; [contradiction|].
    destruct e; try contradiction; eauto.
  - rewrite Ho in Hc. discriminate Hc.
Qed.

(** With a pagination key configured at any layer the call never hands out
    a configuration. *)
Lemma LoadConfig_configured_key_aborts `{Extern} w g path :
  viper.IsSet w (resolver w g path) "clair.database.options.paginationkey" = true ->
  aborted (snd (LoadConfig w g path)).
Proof.
  intros Hs. destruct (LoadConfig_outcomes w g path) as [Ha | (c & _ & _ & Hu & _)].
  - exact Ha.
  - rewrite Hs in Hu. discriminate Hu.
Qed.

(** A later call behaves like a first call on the first path made against
    the first world's files: its own path and files play no part. *)
Lemma LoadConfig_second_call `{Extern} w1 p1 w2 p2 :
  LoadConfig w2 (fst (LoadConfig w1 fresh p1)) p2
  = LoadConfig {| files := files w1; environ := environ w2; entropy := entropy w2 |}
      fresh p1.
Proof.
  rewrite (LoadConfig_unfold w1). cbn [fst].
  rewrite !LoadConfig_unfold.
  assert (resolver w2 {| clairConfig := Some (resolver w1 fresh p1) |} p2
          = resolver w1 fresh p1) as ->.
  { apply resolver_again; rewrite ?resolver_fresh; reflexivity. }
  assert (resolver {| files := files w1; environ := environ w2;
                      entropy := entropy w2 |} fresh p1
          = resolver w1 fresh p1) as ->.
  { rewrite !resolver_fresh. reflexivity. }
  f_equal.
  rewrite (resolve_world w2 {| files := files w1; environ := environ w2;
                               entropy := entropy w2 |})
    by reflexivity.
  apply run_resolve_err_irrelevant. reflexivity.
Qed.

(** The database type is resolved environment first, then file, then the
    default "pgsql". *)
Lemma database_type_precedence `{Extern} w g path c e :
  snd (LoadConfig w g path) = Returned (Some c) e ->
  Type_ (Database c) =
  match env_override w "clair.database.type" with
  | Some s => s
  | None =>
      match viper.config (resolver w g path) !! "clair.database.type" with
      | Some x => cast.ToString (Some x)
      | None => "pgsql"
      end
  end.
Proof.
  intros Ho. set (v := resolver w g path).
  set (X := match env_override w "clair.database.type" with
            | Some s => s
            | None => match viper.config v !! "clair.database.type" with
                      | Some x => cast.ToString (Some x)
                      | None => "pgsql"
                      end
            end).
  set (Inv := fun c : Config => Type_ (Database c) = X).
  assert (Hdb : triple (holding (fun c => Type_ (Database c) = "pgsql"))
                  (load_database w v) (holding Inv) (finished w v Inv)).
  { unfold load_database.
    apply triple_seq with (Q := holding Inv).
    - intros l [Hc Hl]. unfold when, viper.IsSet, viper.GetString, viper.Get.
      change (Strings.ToLower "clair.database.type") with "clair.database.type".
      destruct (resolver_env w g path) as [Hp Ha]. fold v in Hp, Ha.
      rewrite (find_layers w v _ Hp Ha). unfold Inv, X.
      destruct (env_override w "clair.database.type");
        [|destruct (viper.config v !! "clair.database.type")];
        split; cbn; auto.
    - repeat first [ apply triple_seq with (Q := holding Inv)
                   | apply triple_when | apply triple_assign ]; auto. }
  rewrite LoadConfig_unfold in Ho. cbn [snd] in Ho. fold v in Ho.
  assert (finished w v Inv (Returned (Some c) e)) as [Ha | (c' & Hc & Hi & _)].
  { rewrite <- Ho.
    apply (triple_run (fun l => config l = None) (fun _ => False));
      [|reflexivity|intros l' []].
    unfold resolve.
    apply triple_seq with (Q := holding (fun c => Type_ (Database c) = "pgsql"));
      [intros l Hl; split; [exact Hl | reflexivity]|].
    apply triple_seq with (Q := holding Inv); [exact Hdb|].
    apply after_database_holding; auto. }
  - contradiction.
  - injection Hc as -> ->. exact Hi.
Qed.

(** * The claims *)

Import examples.

(** ** C1: an invalid configured pagination key *)

(** C1. A configured pagination key that is not valid, here "not-a-key" in
    the file, should make [LoadConfig] return a validation error and no
    Config. The code instead panics: line 168 writes through the result
    pointer [config], which is still nil, before the key is decoded. *)
Theorem invalid_paginationkey_panics :
  snd (LoadConfig
         (world [("clair.database.options.paginationkey", VString "not-a-key")] [])
         fresh config_yaml)
  = Panicked nil_dereference.
Proof. vm_compute. reflexivity. Qed.

(** ** C2: panics *)

(** C2. [LoadConfig] should always return. The code panics on both writes
    through the nil result pointer: with a well-formed pagination key in
    the file, and with notifier.http set in the environment. *)
Theorem writes_through_nil_config_panic :
  snd (LoadConfig
         (world [("clair.database.options.paginationkey",
                  VString (fernet.Encode entropy32))] [])
         fresh config_yaml)
  = Panicked nil_dereference
  /\ snd (LoadConfig
            (world_env [("CLAIR_CLAIR.DATABASE.NOTIFIER.HTTP", "http://hook")])
            fresh "")
     = Panicked nil_dereference.
Proof. split; vm_compute; reflexivity. Qed.

(** ** C3: notifier settings *)

(** C3. Notifier.Attempts should come from the notifier.attempts key. With
    notifier.attempts 3 in the file the code reads updater.attempts, which
    is unset, and stores 0; a valid notifier.renotifyinterval alone makes
    the load fail on the unset updater.renotifyinterval. *)
Theorem notifier_settings_read_from_updater_keys :
  (exists c,
     snd (LoadConfig (world [("clair.database.notifier.attempts", VInt 3)] [])
            fresh config_yaml)
     = Returned (Some c) None
     /\ Attempts (Notifier c) = 0)
  /\ (exists c,
        snd (LoadConfig
               (world [("clair.database.notifier.attempts", VInt 3);
                       ("clair.database.updater.attempts", VInt 9)] [])
               fresh config_yaml)
        = Returned (Some c) None
        /\ Attempts (Notifier c) = 9)
  /\ snd (LoadConfig
            (world [("clair.database.notifier.renotifyinterval", VString "3h")] [])
            fresh config_yaml)
     = Returned None
         (Some (ErrParseDuration ("time: invalid duration " ++ reference.quote ""))).
Proof.
  split; [|split].
  - eexists. split; [vm_compute; reflexivity | reflexivity].
  - eexists. split; [vm_compute; reflexivity | reflexivity].
  - vm_compute. reflexivity.
Qed.

(** ** C4: the empty path *)




(** ** C5: values that do not parse *)


(** An integer that does not parse does not abort the load either: it reads
    as 0. *)
Example unparseable_integer_reads_as_zero :
  exists c,
    snd (LoadConfig
           (world [("clair.database.api.healthaddr", VString "0.0.0.0:6061");
                   ("clair.database.api.healthport", VString "sixty")] [])
           fresh config_yaml)
    = Returned (Some c) None
    /\ HealthPort (API c) = 0.
Proof. eexists. split; [vm_compute; reflexivity | reflexivity]. Qed.




(** ** C6: a missing datasource *)

(** C6. With no database source configured at any layer [LoadConfig]
    should fail with [ErrDatasourceNotLoaded]. The code returns a Config
    without a source and a nil error. *)
Theorem missing_datasource_not_reported :
  exists c,
    snd (LoadConfig (world [] []) fresh config_yaml) = Returned (Some c) None
    /\ Options (Database c) !! "source" = None.
Proof. eexists. split; [vm_compute; reflexivity | vm_compute; reflexivity]. Qed.

(** No call at all returns [ErrDatasourceNotLoaded]. *)
Lemma ErrDatasourceNotLoaded_never_returned `{Extern} w g path cfg :
  snd (LoadConfig w g path) <> Returned cfg (Some ErrDatasourceNotLoaded).
Proof.
  intros Ho. apply LoadConfig_error_kinds in Ho as [_ [E | [msg E]]]; discriminate E.
Qed.

(** ** C7: precedence of the layers *)

(** C7. Environment over file over default should hold for every recognized
    key. For the health port it does not: with 7001 in the file and 7000 in
    the environment the code keeps the default 6061, since it tests the
    key healthaddr and not healthport. *)
Theorem healthport_precedence_lost :
  exists c,
    snd (LoadConfig
           (world [("clair.database.api.healthport", VInt 7001)]
              [("CLAIR_CLAIR.DATABASE.API.HEALTHPORT", "7000")])
           fresh config_yaml)
    = Returned (Some c) None
    /\ HealthPort (API c) = 6061.
Proof. eexists. split; [vm_compute; reflexivity | reflexivity]. Qed.

(** The example the claim gives does hold: "mysql" in the environment beats
    "pgsql" in the file. *)
Example env_beats_file_for_database_type :
  exists c,
    snd (LoadConfig
           (world [("clair.database.type", VString "pgsql")]
              [("CLAIR_CLAIR.DATABASE.TYPE", "mysql")])
           fresh config_yaml)
    = Returned (Some c) None
    /\ Type_ (Database c) = "mysql".
Proof. eexists. split; [vm_compute; reflexivity | reflexivity]. Qed.

(** ** C8: the pagination key after a successful load *)

(** C8. Whenever [LoadConfig] returns a nil error, the returned Config has
    an entry "paginationkey" in its database options, and its text decodes
    as URL-safe base64 to a key of the required 32 bytes. *)
Theorem paginationkey_valid_on_success `{Extern} w g path cfg :
  snd (LoadConfig w g path) = Returned cfg None ->
  exists c k, cfg = Some c /\
    Options (Database c) !! "paginationkey" = Some k /\ valid_key_text k.
Proof.
  intros Ho.
  destruct (LoadConfig_outcomes w g path) as [Ha | (c & Hc & _ & _ & Hr & Hk)].
  - rewrite Ho in Ha. destruct cfg; contradiction.
  - rewrite Ho in Hc. injection Hc as ->.
    exists c, (fernet.Encode (take fernet.KeyLen (entropy w))).
    auto using generated_key_valid.
Qed.

(** C8 at work on an empty configuration file. *)
Lemma paginationkey_valid_on_success_witness :
  exists cfg,
    snd (LoadConfig (world [] []) fresh config_yaml) = Returned cfg None
    /\ exists c k, cfg = Some c /\
         Options (Database c) !! "paginationkey" = Some k /\ valid_key_text k.
Proof.
  eexists. split.
  - vm_compute. reflexivity.
  - apply (paginationkey_valid_on_success (world [] []) fresh config_yaml).
    vm_compute. reflexivity.
Defined.

(** ** C9: a second call *)

(** C9. After a first call that succeeded, a second call in the same
    process, whatever its path and whatever files exist by then, gives what
    a first call on the first path would give against the first call's
    files: the first file's contents are reused and the second path is
    never read. *)
Theorem second_call_reuses_first_file `{Extern} w1 p1 c1 w2 p2 :
  snd (LoadConfig w1 fresh p1) = Returned (Some c1) None ->
  let g1 := fst (LoadConfig w1 fresh p1) in
  LoadConfig w2 g1 p2
  = LoadConfig {| files := files w1; environ := environ w2; entropy := entropy w2 |}
      fresh p1
  /\ forall files' p2',
       LoadConfig {| files := files'; environ := environ w2; entropy := entropy w2 |}
         g1 p2'
       = LoadConfig w2 g1 p2.
Proof.
  intros _ g1. split; [apply LoadConfig_second_call|].
  intros files' p2'. unfold g1. rewrite !LoadConfig_second_call. reflexivity.
Qed.

(** C9 at work: the first file says "mysql"; the second call names another
    file that says "sqlite" and still gets "mysql". *)
Lemma second_call_reuses_first_file_witness :
  let w1 := world [("clair.database.type", VString "mysql")] [] in
  let w2 :=
    {| files := {[ "/etc/clair/other.yaml" :=
                     list_to_map [("clair.database.type", VString "sqlite")] ]};
       environ := ∅; entropy := entropy32 |} in
  exists c2,
    snd (LoadConfig w2 (fst (LoadConfig w1 fresh config_yaml)) "/etc/clair/other.yaml")
    = Returned (Some c2) None
    /\ Type_ (Database c2) = "mysql".
Proof.
  intros w1 w2.
  assert (exists c1, snd (LoadConfig w1 fresh config_yaml) = Returned (Some c1) None)
    as [c1 H1].
  { eexists. vm_compute. reflexivity. }
  destruct (second_call_reuses_first_file w1 config_yaml c1 w2
              "/etc/clair/other.yaml" H1) as [E _].
  rewrite E. eexists. split; [vm_compute; reflexivity | reflexivity].
Defined.

(** ** C10: the health port *)

(** C10. Whenever the key clair.database.api.healthaddr is not set, a
    returned Config has the default health port 6061, whatever
    clair.database.api.healthport is set to. *)
Theorem healthport_override_alone_ignored `{Extern} w g path c e :
  viper.IsSet w (resolver w g path) "clair.database.api.healthaddr" = false ->
  snd (LoadConfig w g path) = Returned (Some c) e ->
  HealthPort (API c) = 6061.
Proof.
  intros Hu Ho.
  destruct (LoadConfig_finished (fun c => HealthPort (API c) = 6061) w g path)
    as [Ha | (c' & Hc & Hp & _)]; auto.
  - intros Hs. congruence.
  - rewrite Ho in Ha. contradiction.
  - congruence.
Qed.

(** C10 at work: the file sets the health port to 7000 and nothing else. *)
Lemma healthport_override_alone_ignored_witness :
  exists c,
    snd (LoadConfig (world [("clair.database.api.healthport", VInt 7000)] [])
           fresh config_yaml)
    = Returned (Some c) None
    /\ viper.GetInt (world [("clair.database.api.healthport", VInt 7000)] [])
         (resolver (world [("clair.database.api.healthport", VInt 7000)] [])
            fresh config_yaml)
         "clair.database.api.healthport" = 7000
    /\ HealthPort (API c) = 6061.
Proof.
  eexists. split; [vm_compute; reflexivity|]. split; [vm_compute; reflexivity|].
  apply (healthport_override_alone_ignored
           (world [("clair.database.api.healthport", VInt 7000)] [])
           fresh config_yaml _ None).
  - vm_compute. reflexivity.
  - vm_compute. reflexivity.
Defined.

(** * Further properties of [LoadConfig] *)

Import more_examples.

(** ** Running the statements symbolically *)

Lemma seq_assoc (s t u : step) l :
  ((s ;; t) ;; u)%step l = (s ;; t ;; u)%step l.
Proof. unfold seq. destruct (s l); reflexivity. Qed.

Lemma seq_assign f (t : step) c e x :
  (assign f ;; t)%step {| config := c; err := e; cfgFile := x |}
  = t {| config := c; err := e; cfgFile := f x |}.
Proof. reflexivity. Qed.

Lemma seq_when_assign (b : bool) f (t : step) c e x :
  (when b (assign f) ;; t)%step {| config := c; err := e; cfgFile := x |}
  = t {| config := c; err := e; cfgFile := (if b then f else id) x |}.
Proof. destruct b; reflexivity. Qed.

Lemma seq_when_duration `{Extern} (b : bool) f s dflt (t : step) x :
  (when b (assign_duration f s ;; return_if_err) ;; t)%step
    {| config := None; err := None; cfgFile := x |}
  = match (if b then ParseDuration s else inl dflt) with
    | inl d => t {| config := None; err := None;
                    cfgFile := (if b then f d else id) x |}
    | inr msg => Stop (Returned None (Some (ErrParseDuration msg)))
    end.
Proof.
  destruct b; [|reflexivity].
  unfold when, seq, assign_duration, time_ParseDuration, return_if_err, return_.
  destruct (ParseDuration s); reflexivity.
Qed.

Lemma seq_when_through_config (b : bool) f (t : step) e x :
  (when b (assign_through_config f) ;; t)%step
    {| config := None; err := e; cfgFile := x |}
  = if b then Stop (Panicked nil_dereference)
    else t {| config := None; err := e; cfgFile := x |}.
Proof. destruct b; reflexivity. Qed.

Section Closed.

Context `{Extern}.
Variable w : World.
Variable v : viper.Viper.

(** The assignments of a load that succeeds, in program order, build the
    record [loaded]. *)
Lemma loaded_chain t i r :
  (viper.IsSet w v "clair.database.api.timeout" = false -> t = Timeout (API DefaultConfig)) ->
  (viper.IsSet w v "clair.database.updater.interval" = false -> i = Interval (Updater DefaultConfig)) ->
  (viper.IsSet w v "clair.database.notifier.renotifyinterval" = false -> r = RenotifyInterval (Notifier DefaultConfig)) ->
  put_Database_Option "paginationkey" (fernet.Encode (take fernet.KeyLen (entropy w)))
    ((if viper.IsSet w v "clair.database.notifier.renotifyinterval" then set_Notifier_RenotifyInterval r else id)
    ((if viper.IsSet w v "clair.database.notifier.attempts" then set_Notifier_Attempts (viper.GetInt w v "clair.database.updater.attempts") else id)
    ((if viper.IsSet w v "clair.database.updater.interval" then set_Updater_Interval i else id)
    ((if viper.IsSet w v "clair.database.api.certfile" then set_API_CertFile (viper.GetString w v "clair.database.api.certfile") else id)
    ((if viper.IsSet w v "clair.database.api.keyfile" then set_API_KeyFile (viper.GetString w v "clair.database.api.keyfile") else id)
    ((if viper.IsSet w v "clair.database.api.cafile" then set_API_CAFile (viper.GetString w v "clair.database.api.cafile") else id)
    ((if viper.IsSet w v "clair.database.api.timeout" then set_API_Timeout t else id)
    ((if viper.IsSet w v "clair.database.api.healthaddr" then set_API_HealthPort (viper.GetInt w v "clair.database.api.healthport") else id)
    ((if viper.IsSet w v "clair.database.options.cachesize" then put_Database_Option "cachesize" (viper.GetString w v "clair.database.options.cachesize") else id)
    ((if viper.IsSet w v "clair.database.options.source" then put_Database_Option "source" (viper.GetString w v "clair.database.options.source") else id)
    ((if viper.IsSet w v "clair.database.type" then set_Database_Type (viper.GetString w v "clair.database.type") else id)
       (set_Database_Options ∅ DefaultConfig))))))))))))
  = loaded w v t i r.
Proof.
  intros Ht Hi Hr. unfold loaded, string_setting.
  destruct (viper.IsSet w v "clair.database.api.timeout");
    [clear Ht | rewrite (Ht eq_refl); clear Ht].
  all: destruct (viper.IsSet w v "clair.database.updater.interval");
    [clear Hi | rewrite (Hi eq_refl); clear Hi].
  all: destruct (viper.IsSet w v "clair.database.notifier.renotifyinterval");
    [clear Hr | rewrite (Hr eq_refl); clear Hr].
  all: generalize (viper.GetString w v "clair.database.type")
    (viper.GetString w v "clair.database.options.source")
    (viper.GetString w v "clair.database.options.cachesize")
    (viper.GetString w v "clair.database.api.cafile")
    (viper.GetString w v "clair.database.api.keyfile")
    (viper.GetString w v "clair.database.api.certfile")
    (viper.GetInt w v "clair.database.api.healthport")
    (viper.GetInt w v "clair.database.updater.attempts")
    (fernet.Encode (take fernet.KeyLen (entropy w))).
  all: intros s1 s2 s3 s4 s5 s6 n1 n2 k.
  all: destruct (viper.IsSet w v "clair.database.type"),
    (viper.IsSet w v "clair.database.options.source"),
    (viper.IsSet w v "clair.database.options.cachesize"),
    (viper.IsSet w v "clair.database.api.healthaddr"),
    (viper.IsSet w v "clair.database.api.cafile"),
    (viper.IsSet w v "clair.database.api.keyfile"),
    (viper.IsSet w v "clair.database.api.certfile"),
    (viper.IsSet w v "clair.database.notifier.attempts"); reflexivity.
Qed.

Lemma duration_setting_unset guard read dflt d :
  duration_setting w v guard read dflt = inl d ->
  viper.IsSet w v guard = false -> d = dflt.
Proof. unfold duration_setting. intros E Hb. rewrite Hb in E. congruence. Qed.

(** Lines 91-176 end as [outcome_of] says. *)
Lemma resolve_outcome_of :
  run (resolve w v) {| config := None; err := None; cfgFile := ZeroConfig |}
  = outcome_of w v.
Proof.
  unfold run, resolve, init_cfgFile, load_database, load_api_healthport,
    load_api_timeout, load_api_files, load_updater_interval,
    load_notifier_attempts, load_notifier_renotifyinterval, load_notifier_http.
  repeat first [ rewrite seq_assoc | rewrite seq_assign | rewrite seq_when_assign ].
  rewrite (seq_when_duration _ _ _ (Timeout (API DefaultConfig))).
  unfold outcome_of.
  fold (duration_setting w v "clair.database.api.timeout"
          "clair.database.api.timeout" (Timeout (API DefaultConfig))).
  fold (timeout_setting w v).
  destruct (timeout_setting w v) as [t|msg] eqn:Et; [|reflexivity].
  repeat first [ rewrite seq_assoc | rewrite seq_assign | rewrite seq_when_assign ].
  rewrite (seq_when_duration _ _ _ (Interval (Updater DefaultConfig))).
  fold (duration_setting w v "clair.database.updater.interval"
          "clair.database.updater.interval" (Interval (Updater DefaultConfig))).
  fold (interval_setting w v).
  destruct (interval_setting w v) as [i|msg] eqn:Ei; [|reflexivity].
  repeat first [ rewrite seq_assoc | rewrite seq_assign | rewrite seq_when_assign ].
  rewrite (seq_when_duration _ _ _ (RenotifyInterval (Notifier DefaultConfig))).
  fold (duration_setting w v "clair.database.notifier.renotifyinterval"
          "clair.database.updater.renotifyinterval"
          (RenotifyInterval (Notifier DefaultConfig))).
  fold (renotify_setting w v).
  destruct (renotify_setting w v) as [r|msg] eqn:Er; [|reflexivity].
  rewrite seq_when_through_config.
  unfold writes_through_config, ensure_paginationkey.
  destruct (viper.IsSet w v "clair.database.notifier.http"); [reflexivity|].
  destruct (viper.IsSet w v "clair.database.options.paginationkey") eqn:Ek;
    [reflexivity|].
  cbn [orb negb]. unfold seq, generate_paginationkey, fernet.Generate.
  destruct (fernet.KeyLen <=? length (entropy w))%nat; [|reflexivity].
  cbn. f_equal. f_equal.
  apply loaded_chain; eauto using duration_setting_unset.
Qed.

End Closed.

Lemma LoadConfig_outcome_of `{Extern} w g path :
  snd (LoadConfig w g path) = outcome_of w (resolver w g path).
Proof.
  rewrite LoadConfig_unfold. cbn [snd].
  rewrite <- resolve_outcome_of. apply run_resolve_err_irrelevant. reflexivity.
Qed.

Lemma outcome_of_ext `{Extern} w w' v v' :
  (forall k, k ∈ consulted_keys -> viper.find w v k = viper.find w' v' k) ->
  entropy w = entropy w' ->
  outcome_of w v = outcome_of w' v'.
Proof.
  intros Hf He.
  unfold outcome_of, timeout_setting, interval_setting, renotify_setting,
    duration_setting, writes_through_config, loaded, string_setting,
    viper.IsSet, viper.GetString, viper.GetInt, viper.Get.
  repeat match goal with
  | |- context [Strings.ToLower ?k] =>
      let k' := eval vm_compute in (Strings.ToLower k) in
      change (Strings.ToLower k) with k'
  end.
  rewrite !(Hf "clair.database.type"),
    !(Hf "clair.database.options.source"),
    !(Hf "clair.database.options.cachesize"),
    !(Hf "clair.database.options.paginationkey"),
    !(Hf "clair.database.api.healthaddr"),
    !(Hf "clair.database.api.healthport"),
    !(Hf "clair.database.api.timeout"),
    !(Hf "clair.database.api.cafile"),
    !(Hf "clair.database.api.keyfile"),
    !(Hf "clair.database.api.certfile"),
    !(Hf "clair.database.updater.interval"),
    !(Hf "clair.database.notifier.attempts"),
    !(Hf "clair.database.updater.attempts"),
    !(Hf "clair.database.notifier.renotifyinterval"),
    !(Hf "clair.database.updater.renotifyinterval"),
    !(Hf "clair.database.notifier.http")
    by (unfold consulted_keys; repeat constructor).
  rewrite He. reflexivity.
Qed.


(** ** X1: the shapes of an outcome *)

(** X1. Every call ends in one of four ways: it panics on a nil pointer, it
    returns nil and the error of a duration parse, it returns nil and the
    error of the entropy read, or it returns a Config and a nil error. So
    it never returns nil with a nil error, never a Config with an error,
    and never the error of [ReadInConfig]. *)
Theorem LoadConfig_outcome_partition `{Extern} w g path :
  snd (LoadConfig w g path) = Panicked nil_dereference
  \/ (exists msg,
        snd (LoadConfig w g path) = Returned None (Some (ErrParseDuration msg)))
  \/ snd (LoadConfig w g path) = Returned None (Some ErrRandRead)
  \/ (exists c, snd (LoadConfig w g path) = Returned (Some c) None).
Proof.
  rewrite LoadConfig_outcome_of. unfold outcome_of.
  destruct (timeout_setting _ _); [|eauto].
  destruct (interval_setting _ _); [|eauto].
  destruct (renotify_setting _ _); [|eauto].
  destruct (writes_through_config _ _); [eauto|].
  destruct (_ <=? _)%nat; eauto.
Qed.

(** ** X2: when a call succeeds *)

(** X2. A call returns a Config exactly when the three duration statements
    fall through (each guard key unset, or the text read parses), neither
    notifier.http nor the pagination key is set at any layer, and the
    entropy source delivers 32 bytes. *)
Theorem LoadConfig_succeeds_iff `{Extern} w g path :
  (exists c, snd (LoadConfig w g path) = Returned (Some c) None)
  <-> durations_parse w (resolver w g path)
      /\ writes_through_config w (resolver w g path) = false
      /\ (fernet.KeyLen <= length (entropy w))%nat.
Proof.
  rewrite LoadConfig_outcome_of. unfold outcome_of, durations_parse.
  destruct (timeout_setting _ _) as [t|m].
  2:{ split; [intros [c Hc]; discriminate Hc
             | intros (([d Hd] & _) & _); discriminate Hd]. }
  destruct (interval_setting _ _) as [i|m].
  2:{ split; [intros [c Hc]; discriminate Hc
             | intros ((_ & [d Hd] & _) & _); discriminate Hd]. }
  destruct (renotify_setting _ _) as [r|m].
  2:{ split; [intros [c Hc]; discriminate Hc
             | intros ((_ & _ & [d Hd]) & _); discriminate Hd]. }
  destruct (writes_through_config _ _).
  { split; [intros [c Hc]; discriminate Hc | intros (_ & Hw & _); discriminate Hw]. }
  destruct (fernet.KeyLen <=? length (entropy w))%nat eqn:El.
  - apply Nat.leb_le in El. split; [eauto 10 | eauto].
  - apply Nat.leb_gt in El.
    split; [intros [c Hc]; discriminate Hc | intros (_ & _ & Hl); lia].
Qed.

(** ** X3: when a call panics *)

(** X3. A call panics exactly when the three duration statements fall
    through and notifier.http or the pagination key is set at some layer;
    a duration that does not parse returns its error first. *)
Theorem LoadConfig_panics_iff `{Extern} w g path :
  (exists reason, snd (LoadConfig w g path) = Panicked reason)
  <-> durations_parse w (resolver w g path)
      /\ writes_through_config w (resolver w g path) = true.
Proof.
  rewrite LoadConfig_outcome_of. unfold outcome_of, durations_parse.
  destruct (timeout_setting _ _) as [t|m].
  2:{ split; [intros [c Hc]; discriminate Hc
             | intros (([d Hd] & _) & _); discriminate Hd]. }
  destruct (interval_setting _ _) as [i|m].
  2:{ split; [intros [c Hc]; discriminate Hc
             | intros ((_ & [d Hd] & _) & _); discriminate Hd]. }
  destruct (renotify_setting _ _) as [r|m].
  2:{ split; [intros [c Hc]; discriminate Hc
             | intros ((_ & _ & [d Hd]) & _); discriminate Hd]. }
  destruct (writes_through_config _ _).
  - split; eauto 10.
  - split; [|intros [_ Hw]; discriminate Hw].
    intros [c Hc]. destruct (_ <=? _)%nat; discriminate Hc.
Qed.

(** ** X4: the fields of a returned Config *)

(** X4. A returned Config comes with a nil error and is, field by field,
    the record [loaded]: each string setting is the resolved text of its
    key or the default, each duration is the parse of the text read or the
    default, the health port and the attempts are read as found by their
    guards, the options hold the source and cache size that are set and the
    generated key and nothing else, and API.Port and Notifier.Params are
    always the defaults. *)
Theorem LoadConfig_success_fields `{Extern} w g path c e :
  snd (LoadConfig w g path) = Returned (Some c) e ->
  exists timeout interval renotify,
    timeout_setting w (resolver w g path) = inl timeout /\
    interval_setting w (resolver w g path) = inl interval /\
    renotify_setting w (resolver w g path) = inl renotify /\
    c = loaded w (resolver w g path) timeout interval renotify /\
    e = None.
Proof.
  rewrite LoadConfig_outcome_of. unfold outcome_of.
  destruct (timeout_setting _ _) as [t|m]; [|discriminate].
  destruct (interval_setting _ _) as [i|m]; [|discriminate].
  destruct (renotify_setting _ _) as [r|m]; [|discriminate].
  destruct (writes_through_config _ _); [discriminate|].
  destruct (_ <=? _)%nat; [|discriminate].
  intros [= <- <-]. exists t, i, r. auto.
Qed.

(** X4 at work on [sample_file]: the settings arrive, and the port the file
    asks for does not. *)
Lemma LoadConfig_success_fields_witness :
  exists c,
    snd (LoadConfig (world sample_file []) fresh config_yaml)
    = Returned (Some c) None
    /\ Type_ (Database c) = "mysql"
    /\ Options (Database c) !! "source" = Some "host=db dbname=clair"
    /\ Options (Database c) !! "cachesize" = None
    /\ HealthPort (API c) = 7071
    /\ Port (API c) = 6060
    /\ Timeout (API c) = 30 * time.Second
    /\ Interval (Updater c) = 1 * time.Hour.
Proof.
  assert (exists c, snd (LoadConfig (world sample_file []) fresh config_yaml)
                    = Returned (Some c) None) as [c Hc].
  { eexists. vm_compute. reflexivity. }
  exists c. split; [exact Hc|].
  destruct (LoadConfig_success_fields (world sample_file []) fresh config_yaml
              c None Hc)
    as (t & i & r & Ht & Hi & Hr & -> & _).
  vm_compute in Ht. vm_compute in Hi. injection Ht as <-. injection Hi as <-.
  repeat split; vm_compute; reflexivity.
Defined.

(** ** X5: a file that cannot be read *)

(** X5. On a first call a path that names no readable file is not an error:
    the call gives exactly what the empty path gives. *)
Theorem unreadable_file_ignored `{Extern} w path :
  files w !! path = None ->
  snd (LoadConfig w fresh path) = snd (LoadConfig w fresh "").
Proof.
  intros Hn. rewrite !LoadConfig_outcome_of. apply outcome_of_ext; [|reflexivity].
  intros k _. rewrite !resolver_fresh, Hn.
  destruct (decide ("" = "")) as [_|Hne]; [|contradiction].
  destruct (decide (path = "")); reflexivity.
Qed.

(** X5 at work on a path beside the one file there is. *)
Lemma unreadable_file_ignored_witness :
  snd (LoadConfig (world [("clair.database.type", VString "mysql")] [])
         fresh "/etc/clair/missing.yaml")
  = snd (LoadConfig (world [("clair.database.type", VString "mysql")] []) fresh "").
Proof.
  apply (unreadable_file_ignored
           (world [("clair.database.type", VString "mysql")] [])
           "/etc/clair/missing.yaml").
  vm_compute. reflexivity.
Defined.

(** ** X6: the process-wide resolver *)

(** X6. Whatever the state before, the resolver a call leaves in
    [clairConfig] is left untouched by every later call: no later path or
    file is ever loaded into it. *)
Theorem resolver_fixed_after_first_call `{Extern} w1 g p1 w2 p2 :
  fst (LoadConfig w2 (fst (LoadConfig w1 g p1)) p2) = fst (LoadConfig w1 g p1).
Proof.
  rewrite (LoadConfig_unfold w1). cbn [fst]. rewrite LoadConfig_unfold. cbn [fst].
  f_equal. f_equal.
  destruct (resolver_env w1 g p1) as [Hp Ha].
  apply resolver_again; [reflexivity | exact Hp | exact Ha].
Qed.

(** ** X7: keys that are never consulted *)



(** ** X8: generated keys *)

Lemma Encode_inj k1 k2 : fernet.Encode k1 = fernet.Encode k2 -> k1 = k2.
Proof.
  intros E. apply (f_equal base64.DecodeString) in E. unfold fernet.Encode in E.
  rewrite !base64_facts.DecodeString_EncodeToString in E. congruence.
Qed.

(** X8. Two loads that succeed store the same pagination key exactly when
    their entropy reads delivered the same 32 bytes: the key depends on
    nothing else, and different bytes never give the same key text. *)
Theorem generated_keys_equal_iff `{Extern} w1 g1 p1 c1 w2 g2 p2 c2 :
  snd (LoadConfig w1 g1 p1) = Returned (Some c1) None ->
  snd (LoadConfig w2 g2 p2) = Returned (Some c2) None ->
  Options (Database c1) !! "paginationkey" = Options (Database c2) !! "paginationkey"
  <-> take fernet.KeyLen (entropy w1) = take fernet.KeyLen (entropy w2).
Proof.
  intros H1 H2.
  destruct (LoadConfig_outcomes w1 g1 p1) as [Ha | (c & Hc & _ & _ & _ & Hk1)];
    [rewrite H1 in Ha; contradiction|].
  rewrite H1 in Hc. injection Hc as <-.
  destruct (LoadConfig_outcomes w2 g2 p2) as [Ha | (c & Hc & _ & _ & _ & Hk2)];
    [rewrite H2 in Ha; contradiction|].
  rewrite H2 in Hc. injection Hc as <-.
  rewrite Hk1, Hk2. split.
  - intros [= E]. apply Encode_inj, E.
  - intros ->. reflexivity.
Qed.

(** X8 at work: entropy read forwards and backwards gives two keys. *)
Lemma generated_keys_equal_iff_witness :
  exists c1 c2,
    snd (LoadConfig (world_with_entropy entropy32) fresh "") = Returned (Some c1) None
    /\ snd (LoadConfig (world_with_entropy (rev entropy32)) fresh "")
       = Returned (Some c2) None
    /\ Options (Database c1) !! "paginationkey"
       <> Options (Database c2) !! "paginationkey".
Proof.
  assert (exists c, snd (LoadConfig (world_with_entropy entropy32) fresh "")
                    = Returned (Some c) None) as [c1 H1].
  { eexists. vm_compute. reflexivity. }
  assert (exists c, snd (LoadConfig (world_with_entropy (rev entropy32)) fresh "")
                    = Returned (Some c) None) as [c2 H2].
  { eexists. vm_compute. reflexivity. }
  exists c1, c2. split; [exact H1|]. split; [exact H2|].
  intros E.
  apply (generated_keys_equal_iff (world_with_entropy entropy32) fresh "" c1
           (world_with_entropy (rev entropy32)) fresh "" c2 H1 H2) in E.
  vm_compute in E. discriminate E.
Defined.

(** ** X9: the layers behind the string settings *)



